(** * pycheribuild/projects/meson_project.py: the Meson project adapter

  A shallow embedding of [MesonProject] and the properties of its
  lifecycle operations ([__init__], [setup], [needs_configure],
  [configure], [run_tests]) and helpers.

  Python values are embedded as follows.
  - [str] is a sequence of Unicode code points: [pystr := list N].
  - [int] is unbounded: [Z].
  - [pathlib.Path] (POSIX flavour) is a root flag and a list of components.
  - An exception unwinds the method and keeps every mutation made so far:
    a method is a function [State -> Result A * State]. *)

From Stdlib Require Import ZArith NArith String Ascii.
From stdpp Require Import base option list gmap pretty.

Set Default Proof Using "Type".
Local Open Scope N_scope.

(** ** Python strings *)

Module PyStr.

Abbreviation pystr := (list N).

(** A string literal of the source, as code points. *)
Definition lit (s : string) : pystr := N_of_ascii <$> list_ascii_of_string s.

(** Code points are below 0x110000. *)
Definition valid_str (s : pystr) : Prop := Forall (λ c, c < 0x110000) s.

(** [sep.join(items)] *)
Fixpoint join (sep : pystr) (items : list pystr) : pystr :=
  match items with
  | [] => []
  | [x] => x
  | x :: rest => x ++ sep ++ join sep rest
  end.

Definition SQUOTE : N := 39.
Definition DQUOTE : N := 34.
Definition BACKSLASH : N := 92.

(** [x in s] for a character. *)
Definition contains (c : N) (s : pystr) : bool := existsb (N.eqb c) s.

(** One lower-case hexadecimal digit, and [%0<width>x]. *)
Definition hex_digit (d : N) : N := if d <? 10 then 48 + d else 87 + d.

Fixpoint hex_fixed (width : nat) (n : N) : pystr :=
  match width with
  | O => []
  | S w => hex_fixed w (n / 16) ++ [hex_digit (n mod 16)]
  end.

Section Repr.
(** [str.isprintable] of one code point above ASCII: a table of the
    Unicode database, taken as given. *)
Variable isprintable : N -> bool.

(** The quote [repr] picks: double quotes only when the string has a
    single quote and no double quote. *)
Definition repr_quote (s : pystr) : N :=
  if contains SQUOTE s && negb (contains DQUOTE s) then DQUOTE else SQUOTE.

(** One character of [repr(s)] inside quotes [quote]. *)
Definition repr_char (quote c : N) : pystr :=
  if (c =? quote) || (c =? BACKSLASH) then [BACKSLASH; c]
  else if c =? 9 then [BACKSLASH; 116]
  else if c =? 10 then [BACKSLASH; 110]
  else if c =? 13 then [BACKSLASH; 114]
  else if (c <? 32) || (c =? 127) then [BACKSLASH; 120] ++ hex_fixed 2 c
  else if c <? 127 then [c]
  else if isprintable c then [c]
  else if c <=? 255 then [BACKSLASH; 120] ++ hex_fixed 2 c
  else if c <=? 65535 then [BACKSLASH; 117] ++ hex_fixed 4 c
  else [BACKSLASH; 85] ++ hex_fixed 8 c.

Definition repr_body (quote : N) (s : pystr) : pystr :=
  concat (repr_char quote <$> s).

(** [repr(s)] for a [str]. *)
Definition repr_str (s : pystr) : pystr :=
  let q := repr_quote s in [q] ++ repr_body q s ++ [q].

(** [str(l)] for a list [l] of [str]: [repr] of every item, comma
    separated, in brackets. *)
Definition str_of_list (l : list pystr) : pystr :=
  lit "[" ++ join (lit ", ") (repr_str <$> l) ++ lit "]".
End Repr.

(** *** Reading a list literal back *)

Definition unhex_digit (c : N) : option N :=
  if (48 <=? c) && (c <=? 57) then Some (c - 48)
  else if (97 <=? c) && (c <=? 102) then Some (c - 87)
  else None.

Fixpoint parse_hex (width : nat) (acc : N) (s : pystr) : option (N * pystr) :=
  match width with
  | O => Some (acc, s)
  | S w =>
      match s with
      | [] => None
      | c :: s' => d ← unhex_digit c; parse_hex w (16 * acc + d) s'
      end
  end.

(** The characters of a string literal up to its closing quote; [acc] holds
    the characters read so far, last first. *)
Fixpoint parse_str_body (fuel : nat) (quote : N) (acc s : pystr)
  : option (pystr * pystr) :=
  match fuel with
  | O => None
  | S fuel' =>
      match s with
      | [] => None
      | c :: s' =>
          if c =? quote then Some (rev acc, s')
          else if c =? BACKSLASH then
            match s' with
            | [] => None
            | e :: s'' =>
                if e =? 120 then
                  '(n, r) ← parse_hex 2 0 s''; parse_str_body fuel' quote (n :: acc) r
                else if e =? 117 then
                  '(n, r) ← parse_hex 4 0 s''; parse_str_body fuel' quote (n :: acc) r
                else if e =? 85 then
                  '(n, r) ← parse_hex 8 0 s''; parse_str_body fuel' quote (n :: acc) r
                else if e =? 116 then parse_str_body fuel' quote (9 :: acc) s''
                else if e =? 110 then parse_str_body fuel' quote (10 :: acc) s''
                else if e =? 114 then parse_str_body fuel' quote (13 :: acc) s''
                else if (e =? BACKSLASH) || (e =? SQUOTE) || (e =? DQUOTE)
                then parse_str_body fuel' quote (e :: acc) s''
                else None
            end
          else parse_str_body fuel' quote (c :: acc) s'
      end
  end.

(** One quoted string. *)
Definition parse_str (fuel : nat) (s : pystr) : option (pystr * pystr) :=
  match s with
  | q :: s' =>
      if (q =? SQUOTE) || (q =? DQUOTE) then parse_str_body fuel q [] s' else None
  | [] => None
  end.

(** The items after the opening bracket of a non-empty list. *)
Fixpoint parse_items (fuel : nat) (s : pystr) : option (list pystr) :=
  match fuel with
  | O => None
  | S fuel' =>
      '(x, r) ← parse_str fuel' s;
      match r with
      | [93] => Some [x]
      | 44 :: 32 :: r' => xs ← parse_items fuel' r'; Some (x :: xs)
      | _ => None
      end
  end.

(** A bracketed list of quoted strings. *)
Definition parse_list (s : pystr) : option (list pystr) :=
  match s with
  | [91; 93] => Some []
  | 91 :: s' => parse_items (S (length s)) s'
  | _ => None
  end.

End PyStr.
Export PyStr.

(** ** [pathlib.Path], POSIX flavour *)

Module PathLib.

(** A normalised path: whether it starts at the root, and its components. *)
Record Path := mkPath { absolute : bool; parts : list pystr }.

#[global] Instance Path_eq_dec : EqDecision Path.
Proof. solve_decision. Defined.

#[global] Instance Path_countable : Countable Path.
Proof.
  refine (inj_countable' (λ p, (absolute p, parts p))
                         (λ '(a, ps), mkPath a ps) _).
  by intros [].
Defined.

(** A one-component relative path, as in [build_dir / "build.ninja"]. *)
Definition component (name : string) : Path := mkPath false [lit name].

(** [p / q]: an absolute right operand replaces the left one. *)
Definition joinpath (p q : Path) : Path :=
  if absolute q then q else mkPath (absolute p) (parts p ++ parts q).

(** [str(p)] *)
Definition path_str (p : Path) : pystr :=
  if absolute p then lit "/" ++ join (lit "/") (parts p)
  else match parts p with
       | [] => lit "."
       | ps => join (lit "/") ps
       end.

(** [strip_prefix pre l] is [Some r] when [l = pre ++ r]. *)
Fixpoint strip_prefix (pre l : list pystr) : option (list pystr) :=
  match pre, l with
  | [], _ => Some l
  | x :: pre', y :: l' => if decide (x = y) then strip_prefix pre' l' else None
  | _ :: _, [] => None
  end.

(** [p.relative_to(other)]; [None] stands for the [ValueError] raised when
    [other] is not a prefix of [p]. *)
Definition relative_to (p other : Path) : option Path :=
  if decide (absolute p = absolute other)
  then mkPath false <$> strip_prefix (parts other) (parts p)
  else None.

End PathLib.
Export PathLib.

Infix "</>" := joinpath (at level 40, left associativity).

(** ** Python values and exceptions *)

(** A value that is a [str] or a [Path]. [==] on these is structural, and a
    [Path] never equals a [str]. *)
Inductive StrOrPath :=
  | AStr (s : pystr)
  | APath (p : Path).

#[global] Instance StrOrPath_eq_dec : EqDecision StrOrPath.
Proof. solve_decision. Defined.

Inductive PyVal :=
  | VNone
  | VBool (b : bool)
  | VInt (n : Z)
  | VText (x : StrOrPath).

#[global] Instance PyVal_eq_dec : EqDecision PyVal.
Proof. solve_decision. Defined.

Coercion VText : StrOrPath >-> PyVal.

(** [str(x)] for a [str] or a [Path]. *)
Definition str_of (x : StrOrPath) : pystr :=
  match x with
  | AStr s => s
  | APath p => path_str p
  end.

(** A keyword argument of the toolchain-file substitution: one value or a
    list of values. *)
Inductive SubstVal :=
  | Single (v : PyVal)
  | Listed (l : list PyVal).

Inductive Exn :=
  | AssertionError (msg : option pystr)
  | ValueError
  | LookupError
  | AttributeError (name : pystr)
  | CalledProcessError (argv : list pystr).

Inductive Result (A : Type) :=
  | Ok (a : A)
  | Raised (e : Exn).
Arguments Ok {A} a.
Arguments Raised {A} e.

(** ** The outside world *)

(** What the adapter asks of its collaborators, in the order asked. *)
Inductive Event :=
  | RunCmd (argv : list pystr) (cwd : Path)
  | WriteToolchainFile (output : Path) (template : pystr)
      (values : list (pystr * SubstVal))
  | RunConfigure (command : pystr) (args : list pystr)
      (options : list (pystr * PyVal)) (config_file_options : list pystr)
  | InstallFile (src dst : Path) (force : bool)
  | Info (message : list pystr)
  | RunCheriBSDTestScript (script : pystr) (script_args : list pystr)
      (mount_builddir mount_sysroot mount_sourcedir use_full_disk_image : bool).

Record World := mkWorld {
  (** the entries that exist in the file system *)
  files : gset Path;
  (** [os.environ] *)
  environ : gmap pystr pystr;
  (** [shutil.which]: the executables found on the search path *)
  on_search_path : gmap pystr pystr;
  (** how an external process ends: whether it exits with status zero, and
      the file system it leaves *)
  process : Event -> gset Path -> bool * gset Path;
  (** the requests made so far, oldest first *)
  trace : list Event;
}.

(** ** The object *)

(** A version as compared by the source: a tuple of three [int]. *)
Definition Version : Type := Z * Z * Z.

(** [a >= b] on tuples of three [int]: decided at the first position where
    they differ. *)
Definition tuple_ge (a b : Version) : bool :=
  let '(a1, a2, a3) := a in
  let '(b1, b2, b3) := b in
  if negb (a1 =? b1)%Z then (b1 <=? a1)%Z
  else if negb (a2 =? b2)%Z then (b2 <=? a2)%Z
  else if negb (a3 =? b3)%Z then (b3 <=? a3)%Z
  else true.

(** The attributes the adapter assigns or mutates. *)
Record MesonProject := mkMesonProject {
  _minimum_cmake_or_meson_version : option Version;
  configure_command : pystr;
  configure_args : list pystr;
  configure_options : list (pystr * PyVal);
  configure_environment : gmap pystr pystr;
  make_args_env : gmap pystr pystr;
  COMMON_LDFLAGS : list pystr;
  _toolchain_template : option pystr;
  _toolchain_file : option Path;
}.

Record State := mkState { self : MesonProject; world : World }.

(** [self.target_info] *)
Record TargetInfo := mkTargetInfo {
  is_freebsd : bool;
  is_baremetal : bool;
  is_cheribsd : bool;
  pkg_config_libdir_override : option pystr;
  default_libdir : Path;
  additional_rpath_directories : list StrOrPath;
  linker : Path;
}.

(** The attributes and collaborators the adapter only reads. *)
Record Attrs := mkAttrs {
  compiling_for_host : bool;
  target_info : TargetInfo;
  build_dir : Path;
  source_dir : Path;
  install_dir : Path;
  install_prefix : Path;
  destdir : option Path;
  force_configure : bool;
  with_clean : bool;
  use_lto : bool;
  use_asan : bool;
  (** [self.config.make_jobs] *)
  make_jobs : Z;
  (** [self.config.copy_compilation_db_to_source_dir] *)
  copy_compilation_db_to_source_dir : bool;
  (** [self.config.other_tools_dir] *)
  other_tools_dir : Path;
  (** [self.get_compiler_info(self.CC).is_clang] *)
  cc_is_clang : bool;
  (** [self.build_type.to_meson_args()] *)
  build_type_meson_args : list (pystr * PyVal);
  (** the value of the [meson-options] list option *)
  meson_options : list pystr;
  dependency_install_prefixes : list Path;
  (** [self.rootfs_dir]; [None] when reading it raises [LookupError] *)
  rootfs_dir : option Path;
  host_dependency_prefixes : list Path;
  host_CC : Path;
  host_CXX : Path;
  (** [self.crosscompile_target.cpu_architecture.as_meson_cpu_family()] *)
  meson_cpu_family : pystr;
  (** [self.crosscompile_target.cpu_architecture.endianess()] *)
  endianess : pystr;
  _meson_extra_binaries : pystr;
  _meson_extra_properties : pystr;
  (** [str(self.target)] and [str(self.crosscompile_target)] *)
  target : pystr;
  crosscompile_target : pystr;
  meson_test_script_extra_args : list pystr;
  tests_need_full_disk_image : bool;
  (** [include_local_file] of the two packaged templates *)
  meson_machine_file_template : pystr;
  meson_cross_file_native_env_template : pystr;
  (** [NativeTargetInfo(BasicCompilationTargets.NATIVE, None)] *)
  host_pkgconfig_candidates : Path -> list StrOrPath;
  host_cmake_prefix_paths : list Path;
  (** [super().setup()] of the base class *)
  super_setup : State -> Result unit * State;
}.

(** ** Methods: state and exceptions *)

(** A method body: it may read and change the object and the world, and it
    either returns or raises; what it changed before raising stays. *)
Definition M (A : Type) : Type := State -> Result A * State.

Definition ret {A} (a : A) : M A := λ st, (Ok a, st).

Definition bind {A B} (m : M A) (k : A -> M B) : M B :=
  λ st, match m st with
        | (Ok a, st') => k a st'
        | (Raised e, st') => (Raised e, st')
        end.

Definition raise {A} (e : Exn) : M A := λ st, (Raised e, st).

Declare Scope method_scope.
Delimit Scope method_scope with method.
Notation "'let*' x ':=' m 'in' k" := (bind m (λ x, k))
  (at level 10, x name, m at level 100, k at level 200, only parsing)
  : method_scope.
Notation "m1 ';;;' m2" := (bind m1 (λ _, m2))
  (at level 100, m2 at level 200, right associativity, only parsing)
  : method_scope.
Local Open Scope method_scope.

(** [assert cond, msg] *)
Definition assert_ (cond : bool) (msg : option pystr) : M unit :=
  if cond then ret tt else raise (AssertionError msg).

(** Reading an attribute of [self]. *)
Definition get {A} (field : MesonProject -> A) : M A := λ st, (Ok (field (self st)), st).

(** Reading an attribute that exists only once it was assigned. *)
Definition get_assigned {A} (name : string) (field : MesonProject -> option A) : M A :=
  λ st, match field (self st) with
        | Some a => (Ok a, st)
        | None => (Raised (AttributeError (lit name)), st)
        end.

Definition update_self (f : MesonProject -> MesonProject) : M unit :=
  λ st, (Ok tt, mkState (f (self st)) (world st)).

Definition set_minimum_version (v : Version) (p : MesonProject) : MesonProject :=
  mkMesonProject (Some v) (configure_command p) (configure_args p)
    (configure_options p) (configure_environment p) (make_args_env p)
    (COMMON_LDFLAGS p) (_toolchain_template p) (_toolchain_file p).

Definition set_configure_command (c : pystr) (p : MesonProject) : MesonProject :=
  mkMesonProject (_minimum_cmake_or_meson_version p) c (configure_args p)
    (configure_options p) (configure_environment p) (make_args_env p)
    (COMMON_LDFLAGS p) (_toolchain_template p) (_toolchain_file p).

Definition set_configure_args (a : list pystr) (p : MesonProject) : MesonProject :=
  mkMesonProject (_minimum_cmake_or_meson_version p) (configure_command p) a
    (configure_options p) (configure_environment p) (make_args_env p)
    (COMMON_LDFLAGS p) (_toolchain_template p) (_toolchain_file p).

Definition set_configure_options (o : list (pystr * PyVal)) (p : MesonProject)
  : MesonProject :=
  mkMesonProject (_minimum_cmake_or_meson_version p) (configure_command p)
    (configure_args p) o (configure_environment p) (make_args_env p)
    (COMMON_LDFLAGS p) (_toolchain_template p) (_toolchain_file p).

Definition set_configure_environment (e : gmap pystr pystr) (p : MesonProject)
  : MesonProject :=
  mkMesonProject (_minimum_cmake_or_meson_version p) (configure_command p)
    (configure_args p) (configure_options p) e (make_args_env p)
    (COMMON_LDFLAGS p) (_toolchain_template p) (_toolchain_file p).

Definition set_make_args_env (e : gmap pystr pystr) (p : MesonProject)
  : MesonProject :=
  mkMesonProject (_minimum_cmake_or_meson_version p) (configure_command p)
    (configure_args p) (configure_options p) (configure_environment p) e
    (COMMON_LDFLAGS p) (_toolchain_template p) (_toolchain_file p).

Definition set_COMMON_LDFLAGS (l : list pystr) (p : MesonProject) : MesonProject :=
  mkMesonProject (_minimum_cmake_or_meson_version p) (configure_command p)
    (configure_args p) (configure_options p) (configure_environment p)
    (make_args_env p) l (_toolchain_template p) (_toolchain_file p).

Definition set_toolchain_template (t : pystr) (p : MesonProject) : MesonProject :=
  mkMesonProject (_minimum_cmake_or_meson_version p) (configure_command p)
    (configure_args p) (configure_options p) (configure_environment p)
    (make_args_env p) (COMMON_LDFLAGS p) (Some t) (_toolchain_file p).

Definition set_toolchain_file (f : Path) (p : MesonProject) : MesonProject :=
  mkMesonProject (_minimum_cmake_or_meson_version p) (configure_command p)
    (configure_args p) (configure_options p) (configure_environment p)
    (make_args_env p) (COMMON_LDFLAGS p) (_toolchain_template p) (Some f).

(** [self.configure_args.append(x)] and [.extend(xs)] *)
Definition configure_args_extend (xs : list pystr) : M unit :=
  update_self (λ p, set_configure_args (configure_args p ++ xs) p).

Definition configure_args_append (x : pystr) : M unit :=
  configure_args_extend [x].

(** *** Requests to the world *)

Definition set_files (fs : gset Path) (w : World) : World :=
  mkWorld fs (environ w) (on_search_path w) (process w) (trace w).

Definition log (e : Event) (w : World) : World :=
  mkWorld (files w) (environ w) (on_search_path w) (process w) (trace w ++ [e]).

(** [(p).exists()] *)
Definition exists_ (p : Path) : M bool :=
  λ st, (Ok (bool_decide (p ∈ files (world st))), st).

(** [os.getenv(name, None)] *)
Definition getenv (name : string) : M (option pystr) :=
  λ st, (Ok (environ (world st) !! lit name), st).

(** [shutil.which(name)] *)
Definition which (name : pystr) : M (option pystr) :=
  λ st, (Ok (on_search_path (world st) !! name), st).

(** A request that starts an external process: it is recorded, the process
    changes the file system, and a non-zero exit status raises. *)
Definition spawn (e : Event) (argv : list pystr) : M unit :=
  λ st, let w := world st in
        let '(ok, fs) := process w e (files w) in
        let st' := mkState (self st) (set_files fs (log e w)) in
        if ok then (Ok tt, st') else (Raised (CalledProcessError argv), st').

(** A request that starts no process. *)
Definition emit (e : Event) : M unit :=
  λ st, (Ok tt, mkState (self st) (log e (world st))).

(** [with contextlib.suppress(...)] around a block that computes a value:
    [None] when the block was left by a suppressed exception. *)
Definition suppress {A} (caught : Exn -> bool) (m : M A) : M (option A) :=
  λ st, match m st with
        | (Ok a, st') => (Ok (Some a), st')
        | (Raised e, st') => if caught e then (Ok None, st') else (Raised e, st')
        end.

Definition is_LookupError (e : Exn) : bool :=
  match e with LookupError => true | _ => false end.

(** A list comprehension whose element expression may raise. *)
Fixpoint for_each {A B} (f : A -> M B) (l : list A) : M (list B) :=
  match l with
  | [] => ret []
  | x :: rest =>
      let* y := f x in
      let* ys := for_each f rest in
      ret (y :: ys)
  end.

(** [x or fallback] for an optional [str]: [None] and the empty string are
    false. *)
Definition or_else (x : option pystr) (fallback : pystr) : pystr :=
  match x with
  | Some (c :: s) => c :: s
  | _ => fallback
  end.

(** ** Helpers of the package that are not in this file *)

(** Modelled from the spec: [remove_duplicates] of [..utils] is imported, not
    defined here. The spec has it "deduplicate the final list preserving
    first-seen order": walk the items, keep an item unless it was seen. *)
Fixpoint remove_duplicates_seen {A} `{EqDecision A} (seen items : list A) : list A :=
  match items with
  | [] => []
  | x :: rest =>
      if bool_decide (x ∈ seen) then remove_duplicates_seen seen rest
      else x :: remove_duplicates_seen (x :: seen) rest
  end.

Definition remove_duplicates {A} `{EqDecision A} (items : list A) : list A :=
  remove_duplicates_seen [] items.

(** Whether option [key] is in the list, and the list without it. *)
Definition has_option (key : pystr) (opts : list (pystr * PyVal)) : bool :=
  bool_decide (key ∈ opts.*1).

Definition drop_option (key : pystr) (opts : list (pystr * PyVal))
  : list (pystr * PyVal) :=
  filter (λ kv, kv.1 ≠ key) opts.

(** One keyword argument of [_add_configure_options]. *)
Definition add_configure_option (_replace : bool) (opts : list (pystr * PyVal))
    (kv : pystr * PyVal) : list (pystr * PyVal) :=
  if has_option kv.1 opts
  then if _replace then drop_option kv.1 opts ++ [kv] else opts
  else opts ++ [kv].

(** Modelled from the spec: [_add_configure_options] belongs to the base
    class [_CMakeAndMesonSharedLogic]. The spec describes the options it
    accumulates as an "ordered list of key/value command-line options", "keys
    unique per logical option name, last-write-wins on replace, append-only
    otherwise". The keyword arguments are taken in the order written. The spec
    gives [_include_empty_vars] no effect, and has [_config_file_options]
    forwarded "verbatim to the underlying build tool", which is done when the
    tool is run. *)
Definition _add_configure_options (_include_empty_vars _replace : bool)
    (_config_file_options : list pystr) (kwargs : list (pystr * PyVal)) : M unit :=
  update_self (λ p,
    set_configure_options
      (foldl (add_configure_option _replace) (configure_options p) kwargs) p).

(** The file [output_file] is written from [template] and the substitution
    [values]. *)
Definition write_toolchain_file (output_file : Path) (template : pystr)
    (values : list (pystr * SubstVal)) : M unit :=
  λ st, let w := log (WriteToolchainFile output_file template values) (world st) in
        (Ok tt, mkState (self st) (set_files ({[output_file]} ∪ files w) w)).

(** Modelled from the spec: [_prepare_toolchain_file_common] belongs to the
    base class. The spec has it "substitute into the cross/native template"
    the given values and write the file; the template is the one [setup]
    loaded. *)
Definition _prepare_toolchain_file_common (output_file : Path)
    (kwargs : list (pystr * SubstVal)) : M unit :=
  let* template := get_assigned "_toolchain_template" _toolchain_template in
  write_toolchain_file output_file template kwargs.

(** Modelled from the spec: [_replace_values_in_toolchain_file] belongs to the
    base class; it renders [template] with the given values into [file]. *)
Definition _replace_values_in_toolchain_file (template : pystr) (file : Path)
    (kwargs : list (pystr * SubstVal)) : M unit :=
  write_toolchain_file file template kwargs.

(** Modelled from the spec: [run_cmd] is the "generic run-a-shell-command
    utility"; the adapter "waits for each subprocess to complete" and
    "propagates its exit status". *)
Definition run_cmd (argv : list pystr) (cwd : Path) : M unit :=
  spawn (RunCmd argv cwd) argv.

(** Modelled from the spec: [configure] of the base class is "the shared
    configure-invocation routine": the tool is run on the accumulated
    arguments and options. *)
Definition super_configure (cfg : Attrs) : M unit :=
  let* command := get configure_command in
  let* args := get configure_args in
  let* options := get configure_options in
  spawn (RunConfigure command args options (meson_options cfg)) (command :: args).

(** Modelled from the spec: [install_file] is the "install a file" utility; the
    copy replaces [dst]. *)
Definition install_file (src dst : Path) (force : bool) : M unit :=
  λ st, let w := log (InstallFile src dst force) (world st) in
        (Ok tt, mkState (self st) (set_files ({[dst]} ∪ files w) w)).

(** Modelled from the spec: [info] logs "informationally". *)
Definition info (message : list pystr) : M unit := emit (Info message).

(** ** [class MesonProject] *)

Section MesonProject.
Variable cfg : Attrs.

(** [set_minimum_meson_version(major, minor, patch=0)] *)
Definition set_minimum_meson_version (major minor patch : Z) : M unit :=
  let new_version : Version := (major, minor, patch) in
  let* current := get _minimum_cmake_or_meson_version in
  assert_ (match current with
           | None => true
           | Some v => tuple_ge new_version v
           end) None ;;;
  update_self (set_minimum_version new_version).

(** [__init__], from the point where [super().__init__] has returned. *)
Definition __init__ : M unit :=
  let* command := getenv "MESON_COMMAND" in
  update_self (set_configure_command
                 (match command with
                  | None => lit "meson"
                  | Some c => c
                  end)) ;;;
  update_self (λ p, set_configure_args (lit "setup" :: configure_args p) p) ;;;
  set_minimum_meson_version 0 57 0.

(** The property [_native_toolchain_file]. *)
Definition _native_toolchain_file : M Path :=
  assert_ (negb (compiling_for_host cfg)) None ;;;
  ret (build_dir cfg </> component "meson-native-file.ini").

(** [add_meson_options]; the source's defaults are [_include_empty_vars=False]
    and [_replace=True]. *)
Definition add_meson_options (_include_empty_vars _replace : bool)
    (kwargs : list (pystr * PyVal)) : M unit :=
  _add_configure_options _include_empty_vars _replace (meson_options cfg) kwargs.

(** The condition under which Meson is asked to reconfigure. *)
Definition reconfigure_wanted : M bool :=
  if force_configure cfg && negb (with_clean cfg)
  then exists_ (build_dir cfg </> component "meson-info")
  else ret false.

(** The element of the comprehension that strips the rootfs prefix. *)
Definition rootfs_relative (s : Path) : M StrOrPath :=
  let* root := match rootfs_dir cfg with
               | Some r => ret r
               | None => raise LookupError
               end in
  match relative_to s root with
  | Some r => ret (AStr (lit "/" ++ path_str r))
  | None => raise ValueError
  end.

(** [setup()] *)
Definition setup : M unit :=
  super_setup cfg ;;;
  update_self (set_toolchain_template (meson_machine_file_template cfg)) ;;;
  (if negb (compiling_for_host cfg) then
     assert_ (is_freebsd (target_info cfg) || is_baremetal (target_info cfg))
       (Some (lit "Only tested FreeBSD/baremetal")) ;;;
     let toolchain_file := build_dir cfg </> component "meson-cross-file.ini" in
     update_self (set_toolchain_file toolchain_file) ;;;
     configure_args_extend [lit "--cross-file"; path_str toolchain_file] ;;;
     let* native_file := _native_toolchain_file in
     configure_args_extend [lit "--native-file"; path_str native_file]
   else
     let toolchain_file := build_dir cfg </> component "meson-native-file.ini" in
     update_self (set_toolchain_file toolchain_file) ;;;
     configure_args_extend [lit "--native-file"; path_str toolchain_file] ;;;
     match pkg_config_libdir_override (target_info cfg) with
     | Some libdir =>
         update_self (λ p, set_configure_environment
                             (<[lit "PKG_CONFIG_LIBDIR" := libdir]>
                                (configure_environment p)) p) ;;;
         update_self (λ p, set_make_args_env
                             (<[lit "PKG_CONFIG_LIBDIR" := libdir]>
                                (make_args_env p)) p)
     | None => ret tt
     end) ;;;
  let* reconfigure := reconfigure_wanted in
  (if reconfigure then configure_args_append (lit "--reconfigure") else ret tt) ;;;
  configure_args_append (lit "--wrap-mode=nofallback") ;;;
  add_meson_options false true (build_type_meson_args cfg) ;;;
  (if use_lto cfg then
     add_meson_options false true
       [(lit "b_lto", VBool true);
        (lit "b_lto_threads", VInt (make_jobs cfg));
        (lit "b_lto_mode",
          VText (AStr (if cc_is_clang cfg then lit "thin" else lit "default")))]
   else ret tt) ;;;
  (if use_asan cfg then
     add_meson_options false true
       [(lit "b_sanitize", VText (AStr (lit "address,undefined")));
        (lit "b_lundef", VBool false)]
   else ret tt) ;;;
  if negb (compiling_for_host cfg) then
    let extra_libdirs : list StrOrPath :=
      (λ s, APath (s </> default_libdir (target_info cfg)))
        <$> dependency_install_prefixes cfg in
    let* stripped :=
      suppress is_LookupError
        (for_each rootfs_relative
           ((λ s, s </> default_libdir (target_info cfg))
              <$> dependency_install_prefixes cfg)) in
    let extra_libdirs :=
      match stripped with
      | Some l => l
      | None => extra_libdirs
      end in
    let rpath_dirs :=
      remove_duplicates
        (additional_rpath_directories (target_info cfg) ++ extra_libdirs) in
    match rpath_dirs with
    | [] => ret tt
    | _ :: _ =>
        update_self (λ p,
          set_COMMON_LDFLAGS
            (COMMON_LDFLAGS p
               ++ [lit "-Wl,-rpath=" ++ join (lit ":") (str_of <$> rpath_dirs)]) p)
    end
  else ret tt.

(** [needs_configure()] *)
Definition needs_configure : M bool :=
  let* present := exists_ (build_dir cfg </> component "build.ninja") in
  ret (negb present).

(** [isinstance(x, str) or isinstance(x, Path)] *)
Definition is_str_or_path (x : PyVal) : bool :=
  match x with VText _ => true | _ => false end.

(** [str(x)] on the values the assertion lets through. *)
Definition text_of (x : PyVal) : pystr :=
  match x with VText t => str_of t | _ => [] end.

(** [_bool_to_str(value)] *)
Definition _bool_to_str (value : bool) : pystr :=
  if value then lit "true" else lit "false".

(** The executables [configure] looks up: [pkg-config] and [cmake]. *)
Definition find_pkg_config : M pystr :=
  let* found := which (lit "pkg-config") in
  ret (or_else found (lit "pkg-config")).

Definition find_cmake : M pystr :=
  let* command := getenv "CMAKE_COMMAND" in
  let* found := which (match command with
                       | None => lit "cmake"
                       | Some c => c
                       end) in
  ret (or_else found (lit "cmake")).

(** The keyword arguments [configure] passes for the toolchain file. *)
Definition toolchain_file_kwargs (pkg_config_bin cmake_bin : pystr)
  : list (pystr * SubstVal) :=
  [(lit "TOOLCHAIN_LINKER", Single (VText (APath (linker (target_info cfg)))));
   (lit "TOOLCHAIN_MESON_CPU_FAMILY", Single (VText (AStr (meson_cpu_family cfg))));
   (lit "TOOLCHAIN_ENDIANESS", Single (VText (AStr (endianess cfg))));
   (lit "MESON_EXTRA_BINARIES", Single (VText (AStr (_meson_extra_binaries cfg))));
   (lit "MESON_EXTRA_PROPERTIES", Single (VText (AStr (_meson_extra_properties cfg))));
   (lit "TOOLCHAIN_PKGCONFIG_BINARY", Single (VText (AStr pkg_config_bin)));
   (lit "TOOLCHAIN_CMAKE_BINARY", Single (VText (AStr cmake_bin)))].

(** [host_pkg_config_dirs]: the candidates of every host prefix, chained. *)
Definition host_pkg_config_dirs : list StrOrPath :=
  host_dependency_prefixes cfg ≫= host_pkgconfig_candidates cfg.

(** The keyword arguments [configure] passes for the native file of a cross
    build. *)
Definition native_toolchain_file_kwargs (pkg_config_bin cmake_bin : pystr)
  : list (pystr * SubstVal) :=
  [(lit "NATIVE_C_COMPILER", Single (VText (APath (host_CC cfg))));
   (lit "NATIVE_CXX_COMPILER", Single (VText (APath (host_CXX cfg))));
   (lit "TOOLCHAIN_PKGCONFIG_BINARY", Single (VText (AStr pkg_config_bin)));
   (lit "TOOLCHAIN_CMAKE_BINARY", Single (VText (AStr cmake_bin)));
   (lit "NATIVE_PKG_CONFIG_PATH",
     Listed (VText <$> remove_duplicates host_pkg_config_dirs));
   (lit "NATIVE_CMAKE_PREFIX_PATH",
     Listed (VText <$> remove_duplicates
               (APath <$> (host_dependency_prefixes cfg
                             ++ host_cmake_prefix_paths cfg))))].

(** [configure] *)
Definition configure : M unit :=
  let* pkg_config_bin := find_pkg_config in
  let* cmake_bin := find_cmake in
  let* toolchain_file := get_assigned "_toolchain_file" _toolchain_file in
  _prepare_toolchain_file_common toolchain_file
    (toolchain_file_kwargs pkg_config_bin cmake_bin) ;;;
  (if negb (compiling_for_host cfg) then
     let native_toolchain_template := meson_cross_file_native_env_template cfg in
     assert_ (bool_decide (other_tools_dir cfg ∈ host_dependency_prefixes cfg)) None ;;;
     let* native_file := _native_toolchain_file in
     _replace_values_in_toolchain_file native_toolchain_template native_file
       (native_toolchain_file_kwargs pkg_config_bin cmake_bin)
   else ret tt) ;;;
  (if bool_decide (install_prefix cfg ≠ install_dir cfg) then
     assert_ (bool_decide (is_Some (destdir cfg)))
       (Some (lit "custom install prefix requires DESTDIR being set!")) ;;;
     add_meson_options false true
       [(lit "prefix", VText (APath (install_prefix cfg)))]
   else
     add_meson_options false true
       [(lit "prefix", VText (APath (install_dir cfg)))]) ;;;
  let* reconfigure := reconfigure_wanted in
  (if reconfigure then
     configure_args_append (lit "--reconfigure") ;;;
     let* command := get configure_command in
     run_cmd [command; lit "configure"; lit "--clearcache"] (build_dir cfg)
   else ret tt) ;;;
  configure_args_append (path_str (source_dir cfg)) ;;;
  configure_args_append (path_str (build_dir cfg)) ;;;
  super_configure cfg ;;;
  let* have_db :=
    if copy_compilation_db_to_source_dir cfg
    then exists_ (build_dir cfg </> component "compile_commands.json")
    else ret false in
  if have_db then
    install_file (build_dir cfg </> component "compile_commands.json")
      (source_dir cfg </> component "compile_commands.json") true
  else ret tt.

(** [run_tests()] *)
Definition run_tests : M unit :=
  if compiling_for_host cfg then
    let* command := get configure_command in
    run_cmd [command; lit "test"; lit "--print-errorlogs"] (build_dir cfg)
  else if is_cheribsd (target_info cfg) then
    let e := RunCheriBSDTestScript (lit "run_meson_tests.py")
               (meson_test_script_extra_args cfg) true true true
               (tests_need_full_disk_image cfg) in
    spawn e [lit "run_meson_tests.py"]
  else
    info [lit "Don't know how to run tests for"; target cfg;
          lit "when cross-compiling for"; crosscompile_target cfg].

End MesonProject.

Section ToolchainFileList.
(** [str.isprintable] on single code points. *)
Variable isprintable : N -> bool.

(** [repr(x)], as [str(values)] shows each item in the assertion message. *)
Definition repr_val (x : PyVal) : pystr :=
  match x with
  | VNone => lit "None"
  | VBool b => if b then lit "True" else lit "False"
  | VInt n => lit (pretty n)
  | VText (AStr s) => repr_str isprintable s
  | VText (APath p) =>
      lit "PosixPath(" ++ repr_str isprintable (path_str p) ++ lit ")"
  end.

(** [_toolchain_file_list_to_str(values)] *)
Definition _toolchain_file_list_to_str (values : list PyVal) : M pystr :=
  assert_ (forallb is_str_or_path values)
    (Some (lit "All values should be strings/Paths: "
             ++ lit "[" ++ join (lit ", ") (repr_val <$> values) ++ lit "]")) ;;;
  ret (str_of_list isprintable (text_of <$> values)).

End ToolchainFileList.

(** ** Specifications the properties below are stated with *)

(** The order on versions: by major, then minor, then patch number. *)
Definition version_le (a b : Version) : Prop :=
  let '(a1, a2, a3) := a in
  let '(b1, b2, b3) := b in
  (a1 < b1 ∨ (a1 = b1 ∧ (a2 < b2 ∨ (a2 = b2 ∧ a3 ≤ b3))))%Z.

Definition version_lt (a b : Version) : Prop :=
  let '(a1, a2, a3) := a in
  let '(b1, b2, b3) := b in
  (a1 < b1 ∨ (a1 = b1 ∧ (a2 < b2 ∨ (a2 = b2 ∧ a3 < b3))))%Z.

(** Calling the version-floor operation once per triple, in order. *)
Fixpoint set_minimum_meson_versions (versions : list Version) : M unit :=
  match versions with
  | [] => ret tt
  | (major, minor, patch) :: rest =>
      set_minimum_meson_version major minor patch ;;;
      set_minimum_meson_versions rest
  end.

(** The triples are in non-decreasing order, none below [floor]. *)
Fixpoint non_decreasing_from (floor : option Version) (versions : list Version) : Prop :=
  match versions with
  | [] => True
  | v :: rest =>
      match floor with
      | None => True
      | Some f => version_le f v
      end ∧ non_decreasing_from (Some v) rest
  end.

(** A file appears in the file system. *)
Definition create_file (p : Path) (st : State) : State :=
  mkState (self st) (set_files ({[p]} ∪ files (world st)) (world st)).

(** The requests that start the build tool or a test. *)
Definition starts_process (e : Event) : bool :=
  match e with
  | RunCmd _ _ | RunConfigure _ _ _ _ | RunCheriBSDTestScript _ _ _ _ _ _ => true
  | _ => false
  end.

(** How often [x] occurs in an argument list. *)
Definition occurrences (x : pystr) (l : list pystr) : nat :=
  length (filter (λ y, y = x) l).



(** Option [key] is in the list, with value [value] and no other. *)
Definition option_is (key : pystr) (value : PyVal) (opts : list (pystr * PyVal)) : Prop :=
  (key, value) ∈ opts ∧ ∀ v, (key, v) ∈ opts → v = value.

(** *** What [setup] leaves *)

(** What [setup] appends to [configure_args] when the files [fs] exist. *)
Definition setup_configure_args (cfg : Attrs) (fs : gset Path) : list pystr :=
  (if compiling_for_host cfg
   then [lit "--native-file";
         path_str (build_dir cfg </> component "meson-native-file.ini")]
   else [lit "--cross-file";
         path_str (build_dir cfg </> component "meson-cross-file.ini");
         lit "--native-file";
         path_str (build_dir cfg </> component "meson-native-file.ini")])
  ++ (if force_configure cfg && negb (with_clean cfg)
         && bool_decide (build_dir cfg </> component "meson-info" ∈ fs)
      then [lit "--reconfigure"] else [])
  ++ [lit "--wrap-mode=nofallback"].

(** The options [setup] leaves when it starts from [opts]. *)
Definition setup_configure_options (cfg : Attrs) (opts : list (pystr * PyVal))
  : list (pystr * PyVal) :=
  let opts := foldl (add_configure_option true) opts (build_type_meson_args cfg) in
  let opts :=
    if use_lto cfg
    then foldl (add_configure_option true) opts
           [(lit "b_lto", VBool true);
            (lit "b_lto_threads", VInt (make_jobs cfg));
            (lit "b_lto_mode",
              VText (AStr (if cc_is_clang cfg then lit "thin" else lit "default")))]
    else opts in
  if use_asan cfg
  then foldl (add_configure_option true) opts
         [(lit "b_sanitize", VText (AStr (lit "address,undefined")));
          (lit "b_lundef", VBool false)]
  else opts.

(** The library directories of the dependencies, as [setup] lists them for
    the RPATH: relative to the rootfs when there is one; [None] when a
    directory is outside the rootfs and [relative_to] raises. *)
Definition rpath_extra_libdirs (cfg : Attrs) : option (list StrOrPath) :=
  let libdirs := (λ s, s </> default_libdir (target_info cfg))
                   <$> dependency_install_prefixes cfg in
  match rootfs_dir cfg with
  | None => Some (APath <$> libdirs)
  | Some root =>
      mapM (λ s, (λ r, AStr (lit "/" ++ path_str r)) <$> relative_to s root) libdirs
  end.

(** The RPATH directories [setup] arrives at. *)
Definition setup_rpath_dirs (cfg : Attrs) : option (list StrOrPath) :=
  if compiling_for_host cfg then Some []
  else (λ extra, remove_duplicates
                   (additional_rpath_directories (target_info cfg) ++ extra))
         <$> rpath_extra_libdirs cfg.

(** The linker flag for the RPATH directories [dirs]. *)
Definition rpath_flag (dirs : list StrOrPath) : pystr :=
  lit "-Wl,-rpath=" ++ join (lit ":") (str_of <$> dirs).

(** The state [setup] leaves when the base class left [st0] and the RPATH
    directories are [dirs]. *)
Definition after_setup (cfg : Attrs) (dirs : list StrOrPath) (st0 : State) : State :=
  let p := self st0 in
  let host := compiling_for_host cfg in
  let override := if host then pkg_config_libdir_override (target_info cfg) else None in
  mkState
    (mkMesonProject
       (_minimum_cmake_or_meson_version p)
       (configure_command p)
       (configure_args p ++ setup_configure_args cfg (files (world st0)))
       (setup_configure_options cfg (configure_options p))
       (match override with
        | Some libdir => <[lit "PKG_CONFIG_LIBDIR" := libdir]> (configure_environment p)
        | None => configure_environment p
        end)
       (match override with
        | Some libdir => <[lit "PKG_CONFIG_LIBDIR" := libdir]> (make_args_env p)
        | None => make_args_env p
        end)
       (match dirs with
        | [] => COMMON_LDFLAGS p
        | _ :: _ => COMMON_LDFLAGS p ++ [rpath_flag dirs]
        end)
       (Some (meson_machine_file_template cfg))
       (Some (if host then build_dir cfg </> component "meson-native-file.ini"
              else build_dir cfg </> component "meson-cross-file.ini")))
    (world st0).

(** *** What [configure] finds and leaves *)

(** The executables [configure] finds in world [w]. *)
Definition found_pkg_config (w : World) : pystr :=
  or_else (on_search_path w !! lit "pkg-config") (lit "pkg-config").

Definition found_cmake (w : World) : pystr :=
  or_else (on_search_path w
             !! match environ w !! lit "CMAKE_COMMAND" with
                | None => lit "cmake"
                | Some c => c
                end) (lit "cmake").

(** The files that exist once [configure] has written the toolchain files. *)
Definition files_after_toolchain_files (cfg : Attrs) (toolchain_file : Path)
    (fs : gset Path) : gset Path :=
  if compiling_for_host cfg then {[toolchain_file]} ∪ fs
  else {[build_dir cfg </> component "meson-native-file.ini"]}
         ∪ ({[toolchain_file]} ∪ fs).

(** The request that clears Meson's cache, and the main configure request. *)
Definition clearcache_request (cfg : Attrs) (command : pystr) : Event :=
  RunCmd [command; lit "configure"; lit "--clearcache"] (build_dir cfg).

(** ** Concrete builds, for the examples *)

Definition root_path (names : list string) : Path := mkPath true (lit <$> names).

Definition example_target_info (freebsd baremetal cheribsd : bool) : TargetInfo :=
  mkTargetInfo freebsd baremetal cheribsd None
    (mkPath false [lit "usr"; lit "lib"])
    [AStr (lit "/usr/lib"); AStr (lit "/usr/local/lib")]
    (root_path ["usr"; "bin"; "ld.lld"]%string).

(** A build of [/src] in [/build]: for the host or for [ti], with or without
    a forced reconfigure and LTO, installing to [prefix] under [dest]. *)
Definition example_attrs (host : bool) (ti : TargetInfo) (force lto clang : bool)
    (prefix : Path) (dest : option Path) : Attrs :=
  mkAttrs host ti
    (root_path ["build"]%string) (root_path ["src"]%string)
    (root_path ["rootfs"; "opt"]%string) prefix dest
    force false lto false 8%Z false
    (root_path ["tools"]%string) clang
    [(lit "buildtype", VText (AStr (lit "debugoptimized")))]
    []
    [root_path ["rootfs"; "usr"; "local"]%string; root_path ["rootfs"]%string;
     root_path ["rootfs"; "usr"; "local"]%string]
    (Some (root_path ["rootfs"]%string))
    [root_path ["tools"]%string; root_path ["usr"]%string;
     root_path ["tools"]%string]
    (root_path ["usr"; "bin"; "cc"]%string) (root_path ["usr"; "bin"; "c++"]%string)
    (lit "aarch64") (lit "little") [] []
    (lit "demo") (lit "linux-aarch64") [] false
    (lit "[binaries]") (lit "[properties]")
    (λ p, [APath (p </> component "lib" </> component "pkgconfig")])
    [root_path ["usr"]%string]
    (ret tt).

(** A world with the files [fs], no overrides, and tools that succeed and
    leave the files as they are. *)
Definition example_world (fs : list Path) : World :=
  mkWorld (list_to_set fs) ∅ ∅ (λ _ fs, (true, fs)) [].

(** The object as the base class constructor leaves it. *)
Definition example_project : MesonProject :=
  mkMesonProject None [] [] [] ∅ ∅ [] None None.

Definition example_state (fs : list Path) : State :=
  mkState example_project (example_world fs).

(** The state after [m], whatever it returned. *)
Definition state_after {A} (m : M A) (st : State) : State := (m st).2.

(** A cross build for FreeBSD with a forced reconfigure. *)
Definition reconfigured_cross_build : Attrs :=
  example_attrs false (example_target_info true false true) true true true
    (root_path ["rootfs"; "opt"]%string) None.

(** A native build with LTO. *)
Definition native_lto_build : Attrs :=
  example_attrs true (example_target_info true false false) false true true
    (root_path ["rootfs"; "opt"]%string) None.

(** A cross build for a target that is neither FreeBSD nor baremetal. *)
Definition unsupported_cross_build : Attrs :=
  example_attrs false (example_target_info false false false) false false true
    (root_path ["rootfs"; "opt"]%string) None.


(** The example cross build with [/build/meson-info] present: the object as
    constructed, and as [setup] leaves it. *)
Definition reconfigure_constructed : State :=
  state_after __init__ (example_state [root_path ["build"; "meson-info"]%string]).

Definition reconfigure_set_up : State :=
  state_after (setup reconfigured_cross_build) reconfigure_constructed.

(** ** Specifications of the further properties *)

(** A method leaves the world as it found it, whether it returns or raises. *)
Definition keeps_world {A} (m : M A) : Prop :=
  ∀ st r st', m st = (r, st') → world st' = world st.

(** The toolchain files of a build, each with the option that names it on the
    command line. *)
Definition toolchain_files (cfg : Attrs) : list (pystr * Path) :=
  if compiling_for_host cfg
  then [(lit "--native-file", build_dir cfg </> component "meson-native-file.ini")]
  else [(lit "--cross-file", build_dir cfg </> component "meson-cross-file.ini");
        (lit "--native-file", build_dir cfg </> component "meson-native-file.ini")].

(** The toolchain files written by the requests [events], in order. *)
Definition written_files (events : list Event) : list Path :=
  omap (λ e, match e with
             | WriteToolchainFile output _ _ => Some output
             | _ => None
             end) events.

(** The build [cfg] with another rootfs, or with none. *)
Definition with_rootfs_dir (root : option Path) (cfg : Attrs) : Attrs :=
  mkAttrs (compiling_for_host cfg) (target_info cfg) (build_dir cfg) (source_dir cfg)
    (install_dir cfg) (install_prefix cfg) (destdir cfg) (force_configure cfg)
    (with_clean cfg) (use_lto cfg) (use_asan cfg) (make_jobs cfg)
    (copy_compilation_db_to_source_dir cfg) (other_tools_dir cfg) (cc_is_clang cfg)
    (build_type_meson_args cfg) (meson_options cfg) (dependency_install_prefixes cfg)
    root (host_dependency_prefixes cfg) (host_CC cfg) (host_CXX cfg)
    (meson_cpu_family cfg) (endianess cfg) (_meson_extra_binaries cfg)
    (_meson_extra_properties cfg) (target cfg) (crosscompile_target cfg)
    (meson_test_script_extra_args cfg) (tests_need_full_disk_image cfg)
    (meson_machine_file_template cfg) (meson_cross_file_native_env_template cfg)
    (host_pkgconfig_candidates cfg) (host_cmake_prefix_paths cfg) (super_setup cfg).

(** A native build with the address sanitizer. *)
Definition native_asan_build : Attrs :=
  mkAttrs true (example_target_info true false false)
    (root_path ["build"]%string) (root_path ["src"]%string)
    (root_path ["rootfs"; "opt"]%string) (root_path ["rootfs"; "opt"]%string) None
    false false false true 8%Z true
    (root_path ["tools"]%string) false
    [(lit "buildtype", VText (AStr (lit "debug")))]
    [] [] None [root_path ["tools"]%string]
    (root_path ["usr"; "bin"; "cc"]%string) (root_path ["usr"; "bin"; "c++"]%string)
    (lit "x86_64") (lit "little") [] []
    (lit "demo") (lit "native") [] false
    (lit "[binaries]") (lit "[properties]")
    (λ p, [APath (p </> component "lib" </> component "pkgconfig")])
    [root_path ["usr"]%string]
    (ret tt).

(** A cross build for FreeBSD whose [other_tools_dir] is not among the host
    dependency prefixes. *)
Definition missing_tools_cross_build : Attrs :=
  mkAttrs false (example_target_info true false false)
    (root_path ["build"]%string) (root_path ["src"]%string)
    (root_path ["rootfs"; "opt"]%string) (root_path ["rootfs"; "opt"]%string) None
    false false false false 8%Z false
    (root_path ["tools"]%string) true
    [(lit "buildtype", VText (AStr (lit "debug")))]
    [] [root_path ["rootfs"]%string] (Some (root_path ["rootfs"]%string))
    [root_path ["usr"]%string]
    (root_path ["usr"; "bin"; "cc"]%string) (root_path ["usr"; "bin"; "c++"]%string)
    (lit "aarch64") (lit "little") [] []
    (lit "demo") (lit "freebsd-aarch64") [] false
    (lit "[binaries]") (lit "[properties]")
    (λ p, [APath (p </> component "lib" </> component "pkgconfig")])
    [root_path ["usr"]%string]
    (ret tt).

(** The native build with the copy of the compilation database requested,
    and a world in which the configure step leaves that database. *)
Definition world_with_compilation_db : World :=
  mkWorld ∅ ∅ ∅
    (λ e fs, match e with
             | RunConfigure _ _ _ _ =>
                 (true, {[root_path ["build"; "compile_commands.json"]%string]} ∪ fs)
             | _ => (true, fs)
             end) [].

(** A character of the rendered text is a printable ASCII character, or a
    character above ASCII that [str.isprintable] accepts. *)
Definition rendered_char (isprintable : N -> bool) (c : N) : Prop :=
  (32 ≤ c ∧ c < 127) ∨ (127 < c ∧ isprintable c = true).

(** How [setup] lists the library directory of the dependency installed in
    [prefix] for the RPATH: as the path below the rootfs, from the root of
    the target, when there is a rootfs; as the path on the host otherwise. *)
Definition rpath_entry_of (cfg : Attrs) (prefix : Path) (entry : StrOrPath) : Prop :=
  match rootfs_dir cfg with
  | Some root =>
      ∃ below, absolute below = false
               ∧ prefix </> default_libdir (target_info cfg) = root </> below
               ∧ entry = AStr (lit "/" ++ path_str below)
  | None => entry = APath (prefix </> default_libdir (target_info cfg))
  end.

(** A native build on CheriBSD with [pkg-config] installed elsewhere. *)
Definition native_override_build : Attrs :=
  mkAttrs true
    (mkTargetInfo true false true (Some (lit "/usr/local64/libdata/pkgconfig"))
       (mkPath false [lit "usr"; lit "lib"]) []
       (root_path ["usr"; "bin"; "ld.lld"]%string))
    (root_path ["build"]%string) (root_path ["src"]%string)
    (root_path ["rootfs"; "opt"]%string) (root_path ["rootfs"; "opt"]%string) None
    false false false false 8%Z false
    (root_path ["tools"]%string) true
    [(lit "buildtype", VText (AStr (lit "debug")))]
    [] [] None [root_path ["tools"]%string]
    (root_path ["usr"; "bin"; "cc"]%string) (root_path ["usr"; "bin"; "c++"]%string)
    (lit "aarch64") (lit "little") [] []
    (lit "demo") (lit "native") [] false
    (lit "[binaries]") (lit "[properties]")
    (λ p, [APath (p </> component "lib" </> component "pkgconfig")])
    [root_path ["usr"]%string]
    (ret tt).



(** Option [key] is in the list exactly once, with value [value]. *)
Definition option_once (key : pystr) (value : PyVal) (opts : list (pystr * PyVal)) : Prop :=
  filter (λ kv, kv.1 = key) opts = [(key, value)].

(** The configure step of a run without a reconfigure, for the object [p]:
    the arguments end with the source and the build directory, and the
    options hold the install prefix. *)
Definition prefix_option (cfg : Attrs) : pystr * PyVal :=
  (lit "prefix",
   VText (APath (if bool_decide (install_prefix cfg ≠ install_dir cfg)
                 then install_prefix cfg else install_dir cfg))).

Definition plain_configure_args (cfg : Attrs) (p : MesonProject) : list pystr :=
  configure_args p ++ [path_str (source_dir cfg); path_str (build_dir cfg)].

Definition plain_configure_request (cfg : Attrs) (p : MesonProject) : Event :=
  RunConfigure (configure_command p) (plain_configure_args cfg p)
    (add_configure_option true (configure_options p) (prefix_option cfg))
    (meson_options cfg).

(** A world in which the configure step exits with a non-zero status. *)
Definition world_with_failing_configure : World :=
  mkWorld ∅ ∅ ∅
    (λ e fs, match e with
             | RunConfigure _ _ _ _ => (false, fs)
             | _ => (true, fs)
             end) [].

(** * Properties *)

Arguments lit : simpl never.

(** ** Running a method step by step *)

Lemma bind_Ok {A B} (m : M A) (k : A → M B) st a st1 :
  m st = (Ok a, st1) → bind m k st = k a st1.
Proof. unfold bind. by intros ->. Qed.

Lemma bind_Raised {A B} (m : M A) (k : A → M B) st e st1 :
  m st = (Raised e, st1) → bind m k st = (Raised e, st1).
Proof. unfold bind. by intros ->. Qed.

Lemma bind_Ok_inv {A B} (m : M A) (k : A → M B) st b st2 :
  bind m k st = (Ok b, st2) → ∃ a st1, m st = (Ok a, st1) ∧ k a st1 = (Ok b, st2).
Proof.
  unfold bind. destruct (m st) as [[a|e] st1]; [eauto|done].
Qed.

(** A run whose result is [Ok a] ends in the state [state_after] names. *)
Lemma returns_state_after {A} (m : M A) (st : State) (a : A) :
  (m st).1 = Ok a → m st = (Ok a, state_after m st).
Proof. unfold state_after. destruct (m st) as [r st']. cbn. by intros ->. Qed.

Ltac unfold_prims_in H :=
  unfold update_self, configure_args_append, configure_args_extend,
    add_meson_options, _add_configure_options, _native_toolchain_file,
    exists_, assert_, ret, raise, get, get_assigned, getenv, which, emit in H.

Ltac unfold_setters :=
  unfold set_minimum_version, set_configure_command, set_configure_args,
    set_configure_options, set_configure_environment, set_make_args_env,
    set_COMMON_LDFLAGS, set_toolchain_template, set_toolchain_file in *.

(** ** The version floor *)

Lemma tuple_ge_version_le a b : tuple_ge a b = true ↔ version_le b a.
Proof.
  destruct a as [[a1 a2] a3], b as [[b1 b2] b3]. unfold tuple_ge, version_le.
  destruct (Z.eqb_spec a1 b1), (Z.eqb_spec a2 b2), (Z.eqb_spec a3 b3);
    cbn [negb]; rewrite ?Z.leb_le; lia.
Qed.

Lemma tuple_ge_version_lt a b : tuple_ge a b = false ↔ version_lt a b.
Proof.
  destruct a as [[a1 a2] a3], b as [[b1 b2] b3]. unfold tuple_ge, version_lt.
  destruct (Z.eqb_spec a1 b1), (Z.eqb_spec a2 b2), (Z.eqb_spec a3 b3);
    cbn [negb]; rewrite ?Z.leb_gt; lia.
Qed.

(** Raising the floor, or setting it for the first time, succeeds and stores
    the new triple. *)
Lemma set_minimum_meson_version_raise major minor patch st :
  match _minimum_cmake_or_meson_version (self st) with
  | Some v => version_le v (major, minor, patch)
  | None => True
  end →
  set_minimum_meson_version major minor patch st
  = (Ok tt, mkState (set_minimum_version (major, minor, patch) (self st)) (world st)).
Proof.
  intros H. unfold set_minimum_meson_version, bind, get, assert_, update_self.
  cbn -[tuple_ge].
  destruct (_minimum_cmake_or_meson_version (self st)) as [v|]; [|done].
  apply tuple_ge_version_le in H. by rewrite H.
Qed.

(** Lowering the floor trips the assertion, and nothing is stored. *)
Lemma set_minimum_meson_version_lower major minor patch st v :
  _minimum_cmake_or_meson_version (self st) = Some v →
  version_lt (major, minor, patch) v →
  set_minimum_meson_version major minor patch st = (Raised (AssertionError None), st).
Proof.
  intros Hv Hlt. apply tuple_ge_version_lt in Hlt.
  unfold set_minimum_meson_version, bind, get, assert_, update_self.
  cbn -[tuple_ge]. by rewrite Hv, Hlt.
Qed.

Lemma non_decreasing_from_prefix floor l1 v l2 :
  non_decreasing_from floor (l1 ++ v :: l2) → non_decreasing_from floor (l1 ++ [v]).
Proof.
  revert floor. induction l1 as [|u l1 IH]; intros floor; simpl.
  - tauto.
  - intros [? ?]. split; [done|]. by apply IH.
Qed.

Lemma set_minimum_meson_versions_ordered l : ∀ v st,
  non_decreasing_from (_minimum_cmake_or_meson_version (self st)) (l ++ [v]) →
  set_minimum_meson_versions (l ++ [v]) st
  = (Ok tt, mkState (set_minimum_version v (self st)) (world st)).
Proof.
  induction l as [|[[a b] c] l IH]; intros [[x y] z] st; simpl.
  - intros [H _]. unfold bind. by rewrite set_minimum_meson_version_raise.
  - intros [H Hrest]. unfold bind. rewrite set_minimum_meson_version_raise by done.
    by rewrite IH.
Qed.

(** C2: for every sequence of triples passed to [set_minimum_meson_version] in
    non-decreasing order (none below the floor already stored), after each call
    the stored floor is the triple of that call; and in every state a call with
    a triple strictly below the stored floor raises [AssertionError] and leaves
    the state, hence the floor, unchanged. *)
Theorem version_floor_is_monotonic (st : State) :
  (∀ versions, non_decreasing_from (_minimum_cmake_or_meson_version (self st)) versions →
     ∀ called v rest, versions = called ++ v :: rest →
       ∃ st', set_minimum_meson_versions (called ++ [v]) st = (Ok tt, st')
              ∧ _minimum_cmake_or_meson_version (self st') = Some v)
  ∧ (∀ major minor patch floor,
       _minimum_cmake_or_meson_version (self st) = Some floor →
       version_lt (major, minor, patch) floor →
       set_minimum_meson_version major minor patch st
       = (Raised (AssertionError None), st)).
Proof.
  split.
  - intros versions Hsorted called v rest ->.
    apply non_decreasing_from_prefix in Hsorted.
    rewrite set_minimum_meson_versions_ordered by done. by eexists.
  - intros major minor patch floor. apply set_minimum_meson_version_lower.
Qed.

(** The floor goes up through (0, 57, 0), (0, 57, 3) and (1, 2, 0); (1, 1, 9)
    is then refused. *)
Lemma version_floor_is_monotonic_witness :
  (∃ st', set_minimum_meson_versions [(0, 57, 0); (0, 57, 3); (1, 2, 0)]%Z
            (example_state []) = (Ok tt, st')
          ∧ _minimum_cmake_or_meson_version (self st') = Some (1, 2, 0)%Z)
  ∧ set_minimum_meson_version 1 1 9
      (state_after (set_minimum_meson_versions [(0, 57, 0); (0, 57, 3); (1, 2, 0)]%Z)
         (example_state []))
    = (Raised (AssertionError None),
       state_after (set_minimum_meson_versions [(0, 57, 0); (0, 57, 3); (1, 2, 0)]%Z)
         (example_state [])).
Proof.
  split.
  - apply (proj1 (version_floor_is_monotonic (example_state []))
             [(0, 57, 0); (0, 57, 3); (1, 2, 0)]%Z
             ltac:(cbn; lia)
             [(0, 57, 0); (0, 57, 3)]%Z (1, 2, 0)%Z [] eq_refl).
  - apply (proj2 (version_floor_is_monotonic _) 1 1 9 (1, 2, 0))%Z;
      [reflexivity | cbn; lia].
Defined.

(** C10: if [__init__] returns, the floor is (0, 57, 0) and every later call
    with a triple strictly below (0, 57, 0) raises [AssertionError]; and
    [__init__] does return when the base class left no floor. *)
Theorem init_sets_version_floor (st : State) :
  (∀ st', __init__ st = (Ok tt, st') →
     _minimum_cmake_or_meson_version (self st') = Some (0, 57, 0)%Z
     ∧ ∀ major minor patch,
         version_lt (major, minor, patch) (0, 57, 0)%Z →
         set_minimum_meson_version major minor patch st'
         = (Raised (AssertionError None), st'))
  ∧ (_minimum_cmake_or_meson_version (self st) = None →
     ∃ st', __init__ st = (Ok tt, st')).
Proof.
  split.
  - intros st' H. unfold __init__ in H.
    apply bind_Ok_inv in H as (command & st1 & _ & H).
    apply bind_Ok_inv in H as ([] & st2 & _ & H).
    apply bind_Ok_inv in H as ([] & st3 & _ & H).
    assert (Hfloor : _minimum_cmake_or_meson_version (self st') = Some (0, 57, 0)%Z).
    { unfold set_minimum_meson_version in H.
      apply bind_Ok_inv in H as (current & st4 & _ & H).
      apply bind_Ok_inv in H as ([] & st5 & _ & H).
      unfold update_self in H. by injection H as <-. }
    split; [done|]. intros major minor patch Hlt.
    by apply (set_minimum_meson_version_lower _ _ _ _ (0, 57, 0)%Z).
  - intros Hnone. unfold __init__.
    erewrite bind_Ok by done. erewrite bind_Ok by done. erewrite bind_Ok by done.
    rewrite set_minimum_meson_version_raise; [by eexists|].
    cbn. by rewrite Hnone.
Qed.

Lemma init_sets_version_floor_witness :
  _minimum_cmake_or_meson_version (self (state_after __init__ (example_state [])))
  = Some (0, 57, 0)%Z
  ∧ set_minimum_meson_version 0 56 9 (state_after __init__ (example_state []))
    = (Raised (AssertionError None), state_after __init__ (example_state [])).
Proof.
  destruct (proj1 (init_sets_version_floor (example_state []))
              (state_after __init__ (example_state [])) eq_refl) as [Hfloor Hlower].
  split; [exact Hfloor|]. apply Hlower. cbn. lia.
Defined.


(** ** [needs_configure] *)

(** C4: [needs_configure] changes nothing and returns true exactly when
    [build.ninja] is absent from the build directory; once the file is
    created it returns false. *)
Theorem needs_configure_iff_build_ninja_absent (cfg : Attrs) (st : State) :
  (∃ b, needs_configure cfg st = (Ok b, st)
        ∧ (b = true ↔ build_dir cfg </> component "build.ninja" ∉ files (world st)))
  ∧ needs_configure cfg (create_file (build_dir cfg </> component "build.ninja") st)
    = (Ok false, create_file (build_dir cfg </> component "build.ninja") st).
Proof.
  unfold needs_configure, bind, exists_, ret. split.
  - eexists. split; [done|]. rewrite negb_true_iff, bool_decide_eq_false. done.
  - rewrite bool_decide_eq_true_2; [done|]. cbn. set_solver.
Qed.

(** An empty build directory needs configuring; with [build.ninja] it does
    not. *)
Example needs_configure_before_and_after :
  needs_configure native_lto_build (example_state []) = (Ok true, example_state [])
  ∧ (needs_configure native_lto_build
       (create_file (root_path ["build"; "build.ninja"]%string) (example_state []))).1
    = Ok false.
Proof. split; vm_compute; reflexivity. Qed.

(** ** [run_tests] *)

(** C9: when cross-compiling for a target outside the CheriBSD family,
    [run_tests] returns without raising; it leaves the object and the files as
    they were, and the only request it makes is the message that names the
    target and the cross-compilation target, so no command is run. *)
Theorem run_tests_unsupported_target_is_noop (cfg : Attrs) (st : State) :
  compiling_for_host cfg = false →
  is_cheribsd (target_info cfg) = false →
  run_tests cfg st
  = (Ok tt,
     mkState (self st)
       (log (Info [lit "Don't know how to run tests for"; target cfg;
                   lit "when cross-compiling for"; crosscompile_target cfg])
          (world st)))
  ∧ Forall (λ e, starts_process e = false)
      (drop (length (trace (world st))) (trace (world (state_after (run_tests cfg) st)))).
Proof.
  intros Hhost Hcheri. unfold state_after, run_tests. rewrite Hhost, Hcheri.
  split; [done|]. cbn. rewrite drop_app_length. by repeat constructor.
Qed.

Lemma run_tests_unsupported_target_is_noop_witness :
  run_tests unsupported_cross_build (example_state [])
  = (Ok tt,
     mkState example_project
       (log (Info [lit "Don't know how to run tests for"; lit "demo";
                   lit "when cross-compiling for"; lit "linux-aarch64"])
          (example_world []))).
Proof.
  exact (proj1 (run_tests_unsupported_target_is_noop unsupported_cross_build
                  (example_state []) eq_refl eq_refl)).
Defined.

(** ** [setup] *)

(** C3: when cross-compiling for a target that is neither FreeBSD nor
    baremetal, [setup] raises. Once [super().setup()] has returned, it raises
    [AssertionError] having only loaded the template: the world is as the base
    class left it (nothing written, nothing run), no toolchain file is chosen
    and no argument is added. *)
Theorem setup_rejects_unsupported_cross_target (cfg : Attrs) (st : State) :
  compiling_for_host cfg = false →
  is_freebsd (target_info cfg) = false →
  is_baremetal (target_info cfg) = false →
  match super_setup cfg st with
  | (Ok _, st0) =>
      setup cfg st
      = (Raised (AssertionError (Some (lit "Only tested FreeBSD/baremetal"))),
         mkState (set_toolchain_template (meson_machine_file_template cfg) (self st0))
           (world st0))
  | (Raised e, st0) => setup cfg st = (Raised e, st0)
  end.
Proof.
  intros Hhost Hbsd Hbare.
  destruct (super_setup cfg st) as [[[]|e] st0] eqn:Hsuper; unfold setup.
  - rewrite (bind_Ok _ _ _ _ _ Hsuper), Hhost, Hbsd, Hbare. done.
  - by rewrite (bind_Raised _ _ _ _ _ Hsuper).
Qed.

Lemma setup_rejects_unsupported_cross_target_witness :
  setup unsupported_cross_build (example_state [])
  = (Raised (AssertionError (Some (lit "Only tested FreeBSD/baremetal"))),
     mkState (set_toolchain_template (lit "[binaries]") example_project)
       (example_world [])).
Proof.
  exact (setup_rejects_unsupported_cross_target unsupported_cross_build
           (example_state []) eq_refl eq_refl eq_refl).
Defined.


(** ** Hexadecimal escapes *)

Lemma unhex_hex_digit d : d < 16 → unhex_digit (hex_digit d) = Some d.
Proof.
  intros Hd. unfold unhex_digit, hex_digit.
  destruct (N.ltb_spec d 10).
  - replace ((48 <=? 48 + d) && (48 + d <=? 57)) with true; [f_equal; lia|].
    symmetry. apply andb_true_iff. split; apply N.leb_le; lia.
  - replace ((48 <=? 87 + d) && (87 + d <=? 57)) with false.
    2:{ symmetry. apply andb_false_iff. right. apply N.leb_gt. lia. }
    replace ((97 <=? 87 + d) && (87 + d <=? 102)) with true; [f_equal; lia|].
    symmetry. apply andb_true_iff. split; apply N.leb_le; lia.
Qed.

Lemma parse_hex_fixed w : ∀ k n acc rest,
  n < 16 ^ N.of_nat w →
  parse_hex (w + k) acc (hex_fixed w n ++ rest)
  = parse_hex k (acc * 16 ^ N.of_nat w + n) rest.
Proof.
  induction w as [|w IH]; intros k n acc rest Hn.
  - simpl in *. f_equal. lia.
  - cbn [hex_fixed]. rewrite <- app_assoc. cbn [app].
    replace (S w + k)%nat with (w + S k)%nat by lia.
    assert (Hpow : 16 ^ N.of_nat (S w) = 16 * 16 ^ N.of_nat w).
    { rewrite Nat2N.inj_succ, N.pow_succ_r'. done. }
    rewrite IH.
    2:{ rewrite Hpow in Hn. apply N.Div0.div_lt_upper_bound. lia. }
    cbn [parse_hex]. rewrite unhex_hex_digit by (apply N.mod_lt; lia).
    cbn. f_equal. rewrite Hpow.
    pose proof (N.div_mod n 16 ltac:(lia)). lia.
Qed.

Lemma parse_hex_fixed_0 w n rest :
  n < 16 ^ N.of_nat w →
  parse_hex w 0 (hex_fixed w n ++ rest) = Some (n, rest).
Proof.
  intros Hn. pose proof (parse_hex_fixed w 0 n 0 rest Hn) as H.
  rewrite Nat.add_0_r in H. rewrite H. simpl. done.
Qed.


(** ** The list syntax of the toolchain file *)

Section ListRoundTrip.
Variable isprintable : N → bool.

Lemma repr_char_nonempty q c : (1 ≤ length (repr_char isprintable q c))%nat.
Proof. unfold repr_char. repeat case_match; simpl; lia. Qed.

Lemma parse_str_body_char q c acc rest fuel :
  q = SQUOTE ∨ q = DQUOTE →
  c < 0x110000 →
  parse_str_body (S fuel) q acc (repr_char isprintable q c ++ rest)
  = parse_str_body fuel q (c :: acc) rest.
Proof.
  intros Hq Hc. unfold repr_char.
  assert (Hqb : (BACKSLASH =? q) = false).
  { apply N.eqb_neq. unfold BACKSLASH, SQUOTE, DQUOTE in *. lia. }
  assert (Hq120 : ∀ e, (e = q ∨ e = BACKSLASH) →
            (e =? 120) = false ∧ (e =? 117) = false ∧ (e =? 85) = false
            ∧ (e =? 116) = false ∧ (e =? 110) = false ∧ (e =? 114) = false
            ∧ ((e =? BACKSLASH) || (e =? SQUOTE) || (e =? DQUOTE)) = true).
  { intros e He. unfold BACKSLASH, SQUOTE, DQUOTE in *.
    repeat split; try (apply N.eqb_neq; lia).
    destruct He as [->| ->]; destruct Hq as [->| ->]; done. }
  destruct ((c =? q) || (c =? BACKSLASH)) eqn:E1.
  { apply orb_true_iff in E1.
    assert (He : c = q ∨ c = BACKSLASH) by (destruct E1 as [E|E]; apply N.eqb_eq in E; auto).
    cbn [app parse_str_body]. rewrite Hqb, N.eqb_refl.
    destruct (Hq120 c He) as (-> & -> & -> & -> & -> & -> & ->). done. }
  apply orb_false_iff in E1 as [E1 E2].
  destruct (N.eqb_spec c 9) as [->|E3].
  { cbn [app parse_str_body]. rewrite Hqb, N.eqb_refl. done. }
  destruct (N.eqb_spec c 10) as [->|E4].
  { cbn [app parse_str_body]. rewrite Hqb, N.eqb_refl. done. }
  destruct (N.eqb_spec c 13) as [->|E5].
  { cbn [app parse_str_body]. rewrite Hqb, N.eqb_refl. done. }
  assert (Hx : ∀ r, c < 256 →
     parse_str_body (S fuel) q acc (([BACKSLASH; 120] ++ hex_fixed 2 c) ++ r)
     = parse_str_body fuel q (c :: acc) r).
  { intros r Hlt. cbn [app parse_str_body]. rewrite Hqb, N.eqb_refl.
    change (120 =? 120) with true. cbv iota.
    change (hex_digit (c / 16 mod 16) :: hex_digit (c mod 16) :: r)
      with (hex_fixed 2 c ++ r).
    rewrite parse_hex_fixed_0 by (simpl; lia). done. }
  destruct ((c <? 32) || (c =? 127)) eqn:E6.
  { apply Hx. apply orb_true_iff in E6 as [E|E]; [apply N.ltb_lt in E|apply N.eqb_eq in E]; lia. }
  assert (Hraw : parse_str_body (S fuel) q acc ([c] ++ rest)
                 = parse_str_body fuel q (c :: acc) rest).
  { cbn [app parse_str_body]. rewrite E1, E2. done. }
  destruct (c <? 127); [done|].
  destruct (isprintable c); [done|].
  destruct (N.leb_spec c 255); [apply Hx; lia|].
  destruct (N.leb_spec c 65535).
  { cbn [app parse_str_body]. rewrite Hqb, N.eqb_refl.
    change (117 =? 120) with false. change (117 =? 117) with true. cbv iota.
    change (hex_digit (c / 16 / 16 / 16 mod 16) :: hex_digit (c / 16 / 16 mod 16)
            :: hex_digit (c / 16 mod 16) :: hex_digit (c mod 16) :: rest)
      with (hex_fixed 4 c ++ rest).
    rewrite parse_hex_fixed_0 by (simpl; lia). done. }
  cbn [app parse_str_body]. rewrite Hqb, N.eqb_refl.
  change (85 =? 120) with false. change (85 =? 117) with false.
  change (85 =? 85) with true. cbv iota.
  match goal with |- context [parse_hex 8 0 ?l] =>
    change l with (hex_fixed 8 c ++ rest) end.
  rewrite parse_hex_fixed_0 by (simpl; lia). done.
Qed.

Lemma parse_str_body_repr q s : ∀ acc rest fuel,
  q = SQUOTE ∨ q = DQUOTE →
  valid_str s →
  (length s < fuel)%nat →
  parse_str_body fuel q acc (repr_body isprintable q s ++ q :: rest)
  = Some (rev acc ++ s, rest).
Proof.
  induction s as [|c s IH]; intros acc rest fuel Hq Hs Hfuel.
  - destruct fuel as [|fuel]; [simpl in Hfuel; lia|].
    cbn. rewrite N.eqb_refl, app_nil_r. done.
  - destruct fuel as [|fuel]; [simpl in Hfuel; lia|].
    apply Forall_cons in Hs as [Hc Hs].
    unfold repr_body. cbn [fmap list_fmap concat]. rewrite <- app_assoc.
    rewrite parse_str_body_char by done.
    fold (repr_body isprintable q s).
    rewrite IH by (try done; simpl in Hfuel; lia).
    cbn [rev]. rewrite <- app_assoc. done.
Qed.

Lemma repr_quote_cases s : repr_quote s = SQUOTE ∨ repr_quote s = DQUOTE.
Proof. unfold repr_quote. case_match; auto. Qed.

Lemma parse_str_repr s rest fuel :
  valid_str s →
  (length s < fuel)%nat →
  parse_str fuel (repr_str isprintable s ++ rest) = Some (s, rest).
Proof.
  intros Hs Hfuel. unfold repr_str, parse_str. cbn [app].
  destruct (repr_quote_cases s) as [Hq|Hq]; rewrite Hq; cbn [N.eqb orb Pos.eqb SQUOTE DQUOTE];
    rewrite <- app_assoc; cbn [app];
    rewrite parse_str_body_repr; auto.
Qed.

Lemma parse_items_repr x l : ∀ fuel,
  Forall valid_str (x :: l) →
  (length (x :: l) + length (concat (x :: l)) < fuel)%nat →
  parse_items fuel (join (lit ", ") (repr_str isprintable <$> (x :: l)) ++ lit "]")
  = Some (x :: l).
Proof.
  revert x. induction l as [|y l IH]; intros x fuel Hv Hfuel.
  - destruct fuel as [|fuel]; [simpl in Hfuel; lia|].
    cbn [fmap list_fmap join parse_items].
    apply Forall_cons in Hv as [Hx _].
    rewrite parse_str_repr by (try done; simpl in Hfuel; rewrite app_nil_r in Hfuel; lia).
    done.
  - destruct fuel as [|fuel]; [simpl in Hfuel; lia|].
    apply Forall_cons in Hv as [Hx Hv].
    change (join (lit ", ") (repr_str isprintable <$> x :: y :: l))
      with (repr_str isprintable x ++ lit ", "
              ++ join (lit ", ") (repr_str isprintable <$> y :: l)).
    cbn [parse_items]. rewrite <- !app_assoc.
    rewrite parse_str_repr.
    2: done.
    2:{ cbn [length concat] in Hfuel. rewrite length_app in Hfuel. lia. }
    cbn [mbind option_bind lit list_ascii_of_string fmap list_fmap app].
    change (N_of_ascii ",") with 44. change (N_of_ascii " ") with 32. cbv iota beta.
    change (join [44; 32] (repr_str isprintable <$> y :: l))
      with (join (lit ", ") (repr_str isprintable <$> y :: l)).
    assert (Hrec := IH y fuel Hv).
    change (parse_items fuel
              (join (lit ", ") (repr_str isprintable <$> y :: l) ++ lit "]")
            ≫= (λ xs, Some (x :: xs)) = Some (x :: y :: l)).
    rewrite Hrec; [done|].
    cbn [length concat] in Hfuel |- *. rewrite length_app in Hfuel. lia.
Qed.

Lemma length_repr_body q s :
  (length s ≤ length (repr_body isprintable q s))%nat.
Proof.
  induction s as [|c s IH]; [done|].
  unfold repr_body in *. cbn [fmap list_fmap concat]. rewrite length_app.
  pose proof (repr_char_nonempty q c). simpl. lia.
Qed.

Lemma length_join_repr x l :
  (length (x :: l) + length (concat (x :: l))
   ≤ length (join (lit ", ") (repr_str isprintable <$> (x :: l))))%nat.
Proof.
  revert x. induction l as [|y l IH]; intros x.
  - cbn [fmap list_fmap join concat]. unfold repr_str.
    rewrite app_nil_r. cbn [length app]. rewrite length_app.
    pose proof (length_repr_body (repr_quote x) x). simpl. lia.
  - change (join (lit ", ") (repr_str isprintable <$> x :: y :: l))
      with (repr_str isprintable x ++ lit ", "
              ++ join (lit ", ") (repr_str isprintable <$> y :: l)).
    specialize (IH y).
    set (J := join (lit ", ") (repr_str isprintable <$> y :: l)) in *.
    rewrite !length_app. change (length (lit ", ")) with 2%nat.
    unfold repr_str. cbn [length app concat] in IH |- *.
    rewrite !length_app in *.
    pose proof (length_repr_body (repr_quote x) x).
    cbn [length]. lia.
Qed.

Lemma parse_list_str_of_list (l : list pystr) :
  Forall valid_str l →
  parse_list (str_of_list isprintable l) = Some l.
Proof.
  intros Hv. destruct l as [|x l]; [done|].
  unfold str_of_list, parse_list.
  change (lit "[" ++ ?t) with (91 :: t).
  pose proof (length_join_repr x l) as Hlen.
  destruct (join (lit ", ") (repr_str isprintable <$> x :: l) ++ lit "]") as [|c r] eqn:E.
  { apply (f_equal length) in E. rewrite length_app in E. simpl in E. lia. }
  assert (91 :: c :: r ≠ [91; 93]) as Hne.
  { intros [= -> ->]. apply (f_equal length) in E. rewrite length_app in E.
    simpl in E. simpl in Hlen. lia. }
  assert (∀ X, match 91 :: c :: r with
               | [91; 93] => Some []
               | 91 :: s' => X s'
               | _ => None
               end = X (c :: r)) as ->.
  { intros X. destruct c as [|p]; [done|].
    do 7 (destruct p as [p|p|]; try done).
    destruct r; [by exfalso; apply Hne|done]. }
  rewrite <- E. apply parse_items_repr; [done|].
  rewrite E. cbn [length]. apply (f_equal length) in E. rewrite length_app in E.
  simpl in E. simpl in Hlen. simpl. lia.
Qed.

(** C5: for every list of strings and paths, [_toolchain_file_list_to_str]
    returns a text that reads back, as a bracketed list of quoted strings, to
    the strings of the values ([str] of each path), in the same order. *)
Theorem toolchain_file_list_round_trip (values : list StrOrPath) (st : State) :
  Forall valid_str (str_of <$> values) →
  ∃ text,
    _toolchain_file_list_to_str isprintable (VText <$> values) st = (Ok text, st)
    ∧ parse_list text = Some (str_of <$> values).
Proof.
  intros Hvalid. unfold _toolchain_file_list_to_str.
  assert (Hall : forallb is_str_or_path (VText <$> values) = true).
  { induction values as [|x values IH]; [done|]. exact (IH (Forall_inv_tail Hvalid)). }
  assert (Htext : text_of <$> (VText <$> values) = str_of <$> values).
  { rewrite <- list_fmap_compose. done. }
  rewrite Hall, Htext. eexists. split; [done|].
  by apply parse_list_str_of_list.
Qed.

End ListRoundTrip.

(** A string with both kinds of quote, a backslash and a control character, a
    path, and the empty string. *)
Lemma toolchain_file_list_round_trip_witness :
  ∃ text,
    _toolchain_file_list_to_str (λ _, false)
      (VText <$> [AStr (lit "it's a " ++ [34] ++ lit "test" ++ [34; 92; 7; 233; 8364; 128512]);
                  APath (root_path ["usr"; "lib"]%string); AStr []])
      (example_state [])
    = (Ok text, example_state [])
    ∧ parse_list text
      = Some (str_of <$> [AStr (lit "it's a " ++ [34] ++ lit "test" ++ [34; 92; 7; 233; 8364; 128512]);
                          APath (root_path ["usr"; "lib"]%string); AStr []]).
Proof.
  apply (toolchain_file_list_round_trip (λ _, false)).
  repeat constructor; vm_compute; done.
Defined.


(** ** Removing duplicates *)

Section RemoveDuplicates.
Context {A : Type} `{EqDecision A}.
Implicit Types (l seen : list A) (x y : A).





End RemoveDuplicates.

(** ** What [setup] leaves *)

Lemma for_each_rootfs_relative_Some cfg root l st :
  rootfs_dir cfg = Some root →
  for_each (rootfs_relative cfg) l st
  = (match mapM (λ s, (λ r, AStr (lit "/" ++ path_str r)) <$> relative_to s root) l with
     | Some rs => Ok rs
     | None => Raised ValueError
     end, st).
Proof.
  intros Hroot. induction l as [|s l IH]; [done|].
  cbn [for_each mapM]. unfold bind at 1. unfold rootfs_relative at 1. rewrite Hroot.
  unfold bind at 1, ret at 1.
  destruct (relative_to s root) as [r|]; [|done].
  unfold ret at 1. unfold bind at 1. rewrite IH. cbn.
  destruct (mapM _ l); done.
Qed.

Lemma suppress_for_each_rootfs_relative cfg st :
  suppress is_LookupError
    (for_each (rootfs_relative cfg)
       ((λ s, s </> default_libdir (target_info cfg)) <$> dependency_install_prefixes cfg)) st
  = match rootfs_dir cfg, rpath_extra_libdirs cfg with
    | Some _, None => (Raised ValueError, st)
    | Some _, Some l => (Ok (Some l), st)
    | None, _ =>
        (Ok (match dependency_install_prefixes cfg with [] => Some [] | _ => None end), st)
    end.
Proof.
  unfold suppress, rpath_extra_libdirs.
  destruct (rootfs_dir cfg) as [root|] eqn:Hroot.
  - rewrite (for_each_rootfs_relative_Some cfg root) by done.
    destruct (mapM _ _); done.
  - destruct (dependency_install_prefixes cfg) as [|s l]; [done|].
    cbn [fmap list_fmap for_each]. unfold bind at 1. unfold rootfs_relative at 1.
    rewrite Hroot. done.
Qed.

Lemma suppress_rootfs_relative cfg st :
  ∃ stripped,
    suppress is_LookupError
      (for_each (rootfs_relative cfg)
         ((λ s, s </> default_libdir (target_info cfg))
            <$> dependency_install_prefixes cfg)) st
    = (match rpath_extra_libdirs cfg with
       | None => Raised ValueError
       | Some _ => Ok stripped
       end, st)
    ∧ ∀ l, rpath_extra_libdirs cfg = Some l →
           match stripped with
           | Some l' => l'
           | None => (λ s, APath (s </> default_libdir (target_info cfg)))
                       <$> dependency_install_prefixes cfg
           end = l.
Proof.
  rewrite suppress_for_each_rootfs_relative. unfold rpath_extra_libdirs.
  destruct (rootfs_dir cfg) as [root|].
  - destruct (mapM _ _) as [l|]; [|by exists None].
    exists (Some l). split; [done|]. by intros ? [= <-].
  - eexists. split; [done|]. intros l [= <-].
    rewrite <- list_fmap_compose.
    by destruct (dependency_install_prefixes cfg).
Qed.

Lemma reconfigure_wanted_eq cfg st :
  reconfigure_wanted cfg st
  = (Ok (force_configure cfg && negb (with_clean cfg)
         && bool_decide (build_dir cfg </> component "meson-info" ∈ files (world st))),
     st).
Proof.
  unfold reconfigure_wanted. by destruct (force_configure cfg && negb (with_clean cfg)).
Qed.

(** Two objects with the same attributes are the same. *)
Lemma MesonProject_eq (p q : MesonProject) :
  _minimum_cmake_or_meson_version p = _minimum_cmake_or_meson_version q →
  configure_command p = configure_command q →
  configure_args p = configure_args q →
  configure_options p = configure_options q →
  configure_environment p = configure_environment q →
  make_args_env p = make_args_env q →
  COMMON_LDFLAGS p = COMMON_LDFLAGS q →
  _toolchain_template p = _toolchain_template q →
  _toolchain_file p = _toolchain_file q →
  p = q.
Proof. destruct p, q. cbn. by intros -> -> -> -> -> -> -> -> ->. Qed.

Ltac project_setters :=
  cbn [self world _minimum_cmake_or_meson_version configure_command
       configure_args configure_options configure_environment make_args_env
       COMMON_LDFLAGS _toolchain_template _toolchain_file
       set_minimum_version set_configure_command set_configure_args
       set_configure_options set_configure_environment set_make_args_env
       set_COMMON_LDFLAGS set_toolchain_template set_toolchain_file].

Lemma setup_Ok_inv cfg st st' :
  setup cfg st = (Ok tt, st') →
  ∃ st0 dirs,
    super_setup cfg st = (Ok tt, st0)
    ∧ (compiling_for_host cfg = false →
       is_freebsd (target_info cfg) || is_baremetal (target_info cfg) = true)
    ∧ setup_rpath_dirs cfg = Some dirs
    ∧ st' = after_setup cfg dirs st0.
Proof.
  unfold setup. intros H.
  apply bind_Ok_inv in H as ([] & st0 & Hsuper & H).
  apply bind_Ok_inv in H as ([] & st1 & H1 & H).
  apply bind_Ok_inv in H as ([] & st2 & H2 & H).
  apply bind_Ok_inv in H as (reconf & st3 & H3 & H).
  apply bind_Ok_inv in H as ([] & st4 & H4 & H).
  apply bind_Ok_inv in H as ([] & st5 & H5 & H).
  apply bind_Ok_inv in H as ([] & st6 & H6 & H).
  apply bind_Ok_inv in H as ([] & st7 & H7 & H).
  apply bind_Ok_inv in H as ([] & st8 & H8 & H).
  exists st0.
  unfold_prims_in H1. injection H1 as <-.
  rewrite reconfigure_wanted_eq in H3. injection H3 as <- <-.
  unfold_prims_in H5. injection H5 as <-.
  unfold_prims_in H6. injection H6 as <-.
  unfold setup_rpath_dirs, after_setup, setup_configure_args,
    setup_configure_options, rpath_flag.
  destruct (compiling_for_host cfg) eqn:Hhost; cbn [negb] in H, H2.
  - exists []. unfold_prims_in H. injection H as <-.
    split; [done|]. split; [done|]. split; [done|].
    unfold bind in H2. unfold_prims_in H2.
    destruct (pkg_config_libdir_override (target_info cfg)) as [libdir|].
    all: injection H2 as <-.
    all: cbn [self world] in H4 |- *.
    all: destruct (force_configure cfg && negb (with_clean cfg) && bool_decide _).
    all: unfold_prims_in H4; injection H4 as <-.
    all: destruct (use_lto cfg); unfold_prims_in H7; injection H7 as <-.
    all: destruct (use_asan cfg); unfold_prims_in H8; injection H8 as <-.
    all: f_equal; apply MesonProject_eq; project_setters;
      rewrite <- ?app_assoc; reflexivity.
  - unfold bind in H2. unfold_prims_in H2. rewrite Hhost in H2. cbn [negb] in H2.
    destruct (is_freebsd (target_info cfg) || is_baremetal (target_info cfg));
      [|done].
    injection H2 as <-.
    unfold bind in H.
    destruct (suppress_rootfs_relative cfg st8) as (stripped & Hs & Hstripped).
    rewrite Hs in H. clear Hs.
    destruct (rpath_extra_libdirs cfg) as [extra|] eqn:Hextra; [|done].
    specialize (Hstripped extra eq_refl). rewrite Hstripped in H.
    exists (remove_duplicates (additional_rpath_directories (target_info cfg) ++ extra)).
    split; [done|]. split; [done|]. split; [done|].
    destruct (remove_duplicates
                (additional_rpath_directories (target_info cfg) ++ extra)).
    all: unfold_prims_in H; injection H as <-.
    all: cbn [self world] in H4 |- *.
    all: destruct (force_configure cfg && negb (with_clean cfg) && bool_decide _).
    all: unfold_prims_in H4; injection H4 as <-.
    all: destruct (use_lto cfg); unfold_prims_in H7; injection H7 as <-.
    all: destruct (use_asan cfg); unfold_prims_in H8; injection H8 as <-.
    all: f_equal; apply MesonProject_eq; project_setters;
      rewrite <- ?app_assoc; reflexivity.
Qed.


(** ** The accumulated options *)

Lemma elem_of_drop_option key kv opts :
  kv ∈ drop_option key opts ↔ kv.1 ≠ key ∧ kv ∈ opts.
Proof. unfold drop_option. by rewrite list_elem_of_filter. Qed.

Lemma add_configure_option_replaced opts key value :
  option_is key value (add_configure_option true opts (key, value)).
Proof.
  unfold add_configure_option, has_option. cbn [fst].
  case_bool_decide as Hin; split.
  - apply elem_of_app. right. apply list_elem_of_here.
  - intros v [Hv|Hv]%elem_of_app.
    + apply elem_of_drop_option in Hv as [Hne _]. done.
    + apply list_elem_of_singleton in Hv. congruence.
  - apply elem_of_app. right. apply list_elem_of_here.
  - intros v [Hv|Hv]%elem_of_app.
    + exfalso. apply Hin. apply list_elem_of_fmap. by exists (key, v).
    + apply list_elem_of_singleton in Hv. congruence.
Qed.

Lemma add_configure_option_other _replace opts key value key' value' :
  key' ≠ key →
  option_is key value opts →
  option_is key value (add_configure_option _replace opts (key', value')).
Proof.
  intros Hne [Hin Huniq]. unfold add_configure_option. cbn [fst].
  destruct (has_option key' opts), _replace; split; try done.
  - apply elem_of_app. left. apply elem_of_drop_option. split; [|done]. cbn. congruence.
  - intros v [Hv|Hv]%elem_of_app.
    + apply elem_of_drop_option in Hv as [_ Hv]. auto.
    + apply list_elem_of_singleton in Hv. congruence.
  - apply elem_of_app. by left.
  - intros v [Hv|Hv]%elem_of_app; [auto|].
    apply list_elem_of_singleton in Hv. congruence.
  - apply elem_of_app. by left.
  - intros v [Hv|Hv]%elem_of_app; [auto|].
    apply list_elem_of_singleton in Hv. congruence.
Qed.

Lemma lit_inj s1 s2 : lit s1 = lit s2 → s1 = s2.
Proof.
  unfold lit. revert s2. induction s1 as [|a s1 IH]; intros [|b s2]; try done.
  cbn. intros [= Hab Hrest]. f_equal; [|by apply IH].
  rewrite <- (ascii_N_embedding a), <- (ascii_N_embedding b). by rewrite Hab.
Qed.

Lemma lto_options_set cfg opts :
  let opts' :=
    (if use_asan cfg
     then foldl (add_configure_option true)
            (foldl (add_configure_option true) opts
               [(lit "b_lto", VBool true);
                (lit "b_lto_threads", VInt (make_jobs cfg));
                (lit "b_lto_mode",
                  VText (AStr (if cc_is_clang cfg then lit "thin" else lit "default")))])
            [(lit "b_sanitize", VText (AStr (lit "address,undefined")));
             (lit "b_lundef", VBool false)]
     else foldl (add_configure_option true) opts
            [(lit "b_lto", VBool true);
             (lit "b_lto_threads", VInt (make_jobs cfg));
             (lit "b_lto_mode",
               VText (AStr (if cc_is_clang cfg then lit "thin" else lit "default")))]) in
  option_is (lit "b_lto") (VBool true) opts'
  ∧ option_is (lit "b_lto_threads") (VInt (make_jobs cfg)) opts'
  ∧ option_is (lit "b_lto_mode")
      (VText (AStr (if cc_is_clang cfg then lit "thin" else lit "default"))) opts'.
Proof.
  cbn zeta. cbn [foldl].
  assert (Hne : ∀ s1 s2, s1 ≠ s2 → lit s1 ≠ lit s2).
  { intros s1 s2 Hs Hl. by apply Hs, lit_inj. }
  destruct (use_asan cfg); repeat split;
    repeat first
      [ apply add_configure_option_replaced
      | apply add_configure_option_other; [by apply Hne|] ].
Qed.

(** C7: after a [setup] that returned with LTO enabled, the options hold
    [b_lto] with the value true (written [true] by [_bool_to_str]),
    [b_lto_threads] with the configured number of jobs, and [b_lto_mode] with
    [thin] when the compiler is Clang and [default] otherwise, each once. *)
Theorem setup_lto_options (cfg : Attrs) (st st' : State) :
  setup cfg st = (Ok tt, st') →
  use_lto cfg = true →
  option_is (lit "b_lto") (VBool true) (configure_options (self st'))
  ∧ _bool_to_str true = lit "true"
  ∧ option_is (lit "b_lto_threads") (VInt (make_jobs cfg)) (configure_options (self st'))
  ∧ option_is (lit "b_lto_mode")
      (VText (AStr (if cc_is_clang cfg then lit "thin" else lit "default")))
      (configure_options (self st')).
Proof.
  intros Hsetup Hlto.
  apply setup_Ok_inv in Hsetup as (st0 & dirs & _ & _ & _ & ->).
  cbn [after_setup self configure_options]. unfold setup_configure_options.
  rewrite Hlto.
  destruct (lto_options_set cfg
              (foldl (add_configure_option true) (configure_options (self st0))
                 (build_type_meson_args cfg))) as (H1 & H2 & H3).
  done.
Qed.

(** A native build with Clang, LTO and eight jobs. *)
Lemma setup_lto_options_witness :
  option_is (lit "b_lto") (VBool true)
    (configure_options (self (state_after (setup native_lto_build) (example_state []))))
  ∧ _bool_to_str true = lit "true"
  ∧ option_is (lit "b_lto_threads") (VInt 8)
      (configure_options (self (state_after (setup native_lto_build) (example_state []))))
  ∧ option_is (lit "b_lto_mode") (VText (AStr (lit "thin")))
      (configure_options (self (state_after (setup native_lto_build) (example_state [])))).
Proof.
  exact (setup_lto_options native_lto_build (example_state [])
           (state_after (setup native_lto_build) (example_state []))
           eq_refl eq_refl).
Defined.


(** ** What [configure] leaves *)

Lemma find_pkg_config_eq st : find_pkg_config st = (Ok (found_pkg_config (world st)), st).
Proof. done. Qed.

Lemma find_cmake_eq st : find_cmake st = (Ok (found_cmake (world st)), st).
Proof. done. Qed.

Lemma spawn_Ok_inv e argv st st' :
  spawn e argv st = (Ok tt, st') →
  self st' = self st ∧ trace (world st') = trace (world st) ++ [e]
  ∧ environ (world st') = environ (world st)
  ∧ on_search_path (world st') = on_search_path (world st).
Proof.
  unfold spawn. destruct (process _ _ _) as [[] fs]; [|done].
  by intros [= <-].
Qed.

Lemma configure_Ok_inv cfg st st' :
  configure cfg st = (Ok tt, st') →
  ∃ toolchain_file template tail,
    _toolchain_file (self st) = Some toolchain_file
    ∧ _toolchain_template (self st) = Some template
    ∧ (compiling_for_host cfg = false →
       other_tools_dir cfg ∈ host_dependency_prefixes cfg)
    ∧ (install_prefix cfg ≠ install_dir cfg → is_Some (destdir cfg))
    ∧ let pkg_config_bin := found_pkg_config (world st) in
      let cmake_bin := found_cmake (world st) in
      let reconfigure :=
        force_configure cfg && negb (with_clean cfg)
        && bool_decide (build_dir cfg </> component "meson-info"
                          ∈ files_after_toolchain_files cfg toolchain_file
                              (files (world st))) in
      let args :=
        configure_args (self st)
          ++ (if reconfigure then [lit "--reconfigure"] else [])
          ++ [path_str (source_dir cfg); path_str (build_dir cfg)] in
      let options :=
        add_configure_option true (configure_options (self st))
          (lit "prefix",
            VText (APath (if bool_decide (install_prefix cfg ≠ install_dir cfg)
                          then install_prefix cfg else install_dir cfg))) in
      self st' = set_configure_options options (set_configure_args args (self st))
      ∧ trace (world st')
        = trace (world st)
            ++ [WriteToolchainFile toolchain_file template
                  (toolchain_file_kwargs cfg pkg_config_bin cmake_bin)]
            ++ (if compiling_for_host cfg then []
                else [WriteToolchainFile
                        (build_dir cfg </> component "meson-native-file.ini")
                        (meson_cross_file_native_env_template cfg)
                        (native_toolchain_file_kwargs cfg pkg_config_bin cmake_bin)])
            ++ (if reconfigure
                then [RunCmd [configure_command (self st); lit "configure";
                              lit "--clearcache"] (build_dir cfg)]
                else [])
            ++ [RunConfigure (configure_command (self st)) args options
                  (meson_options cfg)]
            ++ tail
      ∧ (tail = []
         ∨ tail = [InstallFile (build_dir cfg </> component "compile_commands.json")
                     (source_dir cfg </> component "compile_commands.json") true]).
Proof.
  unfold configure. intros H.
  apply bind_Ok_inv in H as (pkg & st1 & H1 & H).
  apply bind_Ok_inv in H as (cmake & st2 & H2 & H).
  apply bind_Ok_inv in H as (tf & st3 & H3 & H).
  apply bind_Ok_inv in H as ([] & st4 & H4 & H).
  apply bind_Ok_inv in H as ([] & st5 & H5 & H).
  apply bind_Ok_inv in H as ([] & st6 & H6 & H).
  apply bind_Ok_inv in H as (reconf & st7 & H7 & H).
  apply bind_Ok_inv in H as ([] & st8 & H8 & H).
  apply bind_Ok_inv in H as ([] & st9 & H9 & H).
  apply bind_Ok_inv in H as ([] & st10 & H10 & H).
  apply bind_Ok_inv in H as ([] & st11 & H11 & H).
  apply bind_Ok_inv in H as (have_db & st12 & H12 & H).
  rewrite find_pkg_config_eq in H1. injection H1 as <- <-.
  rewrite find_cmake_eq in H2. injection H2 as <- <-.
  unfold get_assigned in H3.
  destruct (_toolchain_file (self st)) as [tf'|] eqn:Htf; [|done].
  injection H3 as <- <-.
  unfold _prepare_toolchain_file_common, bind, get_assigned in H4.
  destruct (_toolchain_template (self st)) as [template|] eqn:Htemplate; [|done].
  unfold write_toolchain_file in H4. injection H4 as <-.
  exists tf', template.
  (* the native file of a cross build *)
  assert (Hst5 : self st5 = self st
      ∧ files (world st5) = files_after_toolchain_files cfg tf' (files (world st))
      ∧ trace (world st5)
        = trace (world st)
            ++ [WriteToolchainFile tf' template
                  (toolchain_file_kwargs cfg (found_pkg_config (world st))
                     (found_cmake (world st)))]
            ++ (if compiling_for_host cfg then []
                else [WriteToolchainFile
                        (build_dir cfg </> component "meson-native-file.ini")
                        (meson_cross_file_native_env_template cfg)
                        (native_toolchain_file_kwargs cfg
                           (found_pkg_config (world st)) (found_cmake (world st)))])
      ∧ (compiling_for_host cfg = false →
         other_tools_dir cfg ∈ host_dependency_prefixes cfg)).
  { unfold files_after_toolchain_files.
    destruct (compiling_for_host cfg) eqn:Hhost; cbn [negb] in H5.
    - injection H5 as <-. cbn. repeat split; done.
    - unfold bind, assert_, _native_toolchain_file, ret, raise in H5.
      rewrite Hhost in H5. cbn [negb] in H5.
      destruct (bool_decide (other_tools_dir cfg ∈ _)) eqn:Htools; [|done].
      apply bool_decide_eq_true in Htools.
      unfold _replace_values_in_toolchain_file, write_toolchain_file in H5.
      injection H5 as <-. cbn. rewrite <- app_assoc. repeat split; done. }
  destruct Hst5 as (Hself5 & Hfiles5 & Htrace5 & Htools).
  (* the install prefix *)
  assert (Hst6 : world st6 = world st5
      ∧ (install_prefix cfg ≠ install_dir cfg → is_Some (destdir cfg))
      ∧ self st6
        = set_configure_options
            (add_configure_option true (configure_options (self st))
               (lit "prefix",
                 VText (APath (if bool_decide (install_prefix cfg ≠ install_dir cfg)
                               then install_prefix cfg else install_dir cfg))))
            (self st)).
  { unfold bind, assert_, add_meson_options, _add_configure_options, update_self,
      ret, raise in H6.
    destruct (bool_decide (install_prefix cfg ≠ install_dir cfg)) eqn:Hprefix.
    - destruct (bool_decide (is_Some (destdir cfg))) eqn:Hdest; [|done].
      apply bool_decide_eq_true in Hdest.
      injection H6 as <-. rewrite Hself5. done.
    - apply bool_decide_eq_false in Hprefix.
      injection H6 as <-. rewrite Hself5. done. }
  destruct Hst6 as (Hworld6 & Hdest & Hself6).
  rewrite reconfigure_wanted_eq in H7. injection H7 as <- <-.
  rewrite Hworld6, Hfiles5 in H8.
  set (reconfigure := force_configure cfg && negb (with_clean cfg) && bool_decide _) in *.
  (* the cache is cleared *)
  assert (Hst8 : self st8
        = set_configure_args
            (configure_args (self st6)
               ++ (if reconfigure then [lit "--reconfigure"] else [])) (self st6)
      ∧ trace (world st8)
        = trace (world st6)
            ++ (if reconfigure
                then [RunCmd [configure_command (self st); lit "configure";
                              lit "--clearcache"] (build_dir cfg)]
                else [])).
  { destruct reconfigure.
    - unfold bind, configure_args_append, configure_args_extend, update_self, get,
        run_cmd in H8.
      apply spawn_Ok_inv in H8 as (Hs & Ht & _). cbn in Hs, Ht.
      rewrite Hs, Ht, Hself6. done.
    - injection H8 as <-. rewrite !app_nil_r. by destruct (self st6). }
  destruct Hst8 as (Hself8 & Htrace8).
  unfold configure_args_append, configure_args_extend, update_self in H9, H10.
  injection H9 as <-. injection H10 as <-.
  unfold super_configure, bind, get in H11.
  apply spawn_Ok_inv in H11 as (Hself11 & Htrace11 & _).
  cbn [self world] in Hself11, Htrace11.
  assert (Hst12 : st12 = st11).
  { destruct (copy_compilation_db_to_source_dir cfg).
    - unfold exists_ in H12. by injection H12 as _ <-.
    - by injection H12 as _ <-. }
  subst st12.
  assert (Hfinal : self st' = self st11
      ∧ ∃ tail, trace (world st') = trace (world st11) ++ tail
         ∧ (tail = []
            ∨ tail = [InstallFile (build_dir cfg </> component "compile_commands.json")
                        (source_dir cfg </> component "compile_commands.json") true])).
  { destruct have_db.
    - unfold install_file in H. injection H as <-. split; [done|].
      eexists. split; [done|]. by right.
    - injection H as <-. split; [done|]. exists []. rewrite app_nil_r. auto. }
  destruct Hfinal as (Hself' & tail & Htrace' & Htail).
  exists tail. split; [done|]. split; [done|]. split; [done|]. split; [done|].
  cbn zeta.
  assert (Hself_final : self st'
    = set_configure_options
        (add_configure_option true (configure_options (self st))
           (lit "prefix",
            VText (APath (if bool_decide (install_prefix cfg ≠ install_dir cfg)
                          then install_prefix cfg else install_dir cfg))))
        (set_configure_args
           (configure_args (self st)
              ++ (if reconfigure then [lit "--reconfigure"] else [])
              ++ [path_str (source_dir cfg); path_str (build_dir cfg)])
           (self st))).
  { rewrite Hself', Hself11, Hself8, Hself6. unfold_setters. cbn.
    rewrite <- !app_assoc. done. }
  split; [done|]. split; [|done].
  rewrite Htrace', Htrace11. cbn [world]. rewrite Htrace8, Hworld6, Htrace5.
  rewrite Hself8, Hself6. unfold_setters. cbn.
  rewrite <- !app_assoc. done.
Qed.




(** ** Search paths without duplicates *)

Lemma setup_rpath_dirs_cross cfg dirs :
  compiling_for_host cfg = false →
  setup_rpath_dirs cfg = Some dirs →
  ∃ extra, rpath_extra_libdirs cfg = Some extra
           ∧ dirs = remove_duplicates
                      (additional_rpath_directories (target_info cfg) ++ extra).
Proof.
  unfold setup_rpath_dirs. intros -> Hdirs.
  apply fmap_Some in Hdirs as (extra & Hextra & ->). eauto.
Qed.






(** ** A forced reconfigure *)

Lemma occurrences_app x l1 l2 :
  occurrences x (l1 ++ l2) = (occurrences x l1 + occurrences x l2)%nat.
Proof. unfold occurrences. by rewrite filter_app, length_app. Qed.

Lemma occurrences_here x : occurrences x [x] = 1%nat.
Proof.
  unfold occurrences. rewrite filter_cons_True by done. done.
Qed.

Lemma elem_of_files_after_toolchain_files cfg toolchain_file fs p :
  p ∈ fs → p ∈ files_after_toolchain_files cfg toolchain_file fs.
Proof.
  unfold files_after_toolchain_files. destruct (compiling_for_host cfg); set_solver.
Qed.

(** What [setup] appends holds [--reconfigure] when the reconfigure is
    wanted. *)
Lemma setup_configure_args_reconfigure cfg fs :
  force_configure cfg = true →
  with_clean cfg = false →
  build_dir cfg </> component "meson-info" ∈ fs →
  (1 ≤ occurrences (lit "--reconfigure") (setup_configure_args cfg fs))%nat.
Proof.
  intros Hforce Hclean Hinfo. unfold setup_configure_args.
  rewrite Hforce, Hclean, bool_decide_eq_true_2 by done. cbn [andb negb].
  rewrite !occurrences_app, occurrences_here. lia.
Qed.

(** C1: in a run of [setup] and then [configure] with a forced reconfigure,
    no clean and [meson-info] in the build directory, where both return, the
    request [meson configure --clearcache] is the first process started and
    the main configure request follows it at once; but the arguments of that
    request hold [--reconfigure] at least twice, not once: [setup] appends it
    and [configure] appends it again. *)
Theorem reconfigure_is_passed_twice (cfg : Attrs) (st st1 st2 : State) :
  force_configure cfg = true →
  with_clean cfg = false →
  setup cfg st = (Ok tt, st1) →
  build_dir cfg </> component "meson-info" ∈ files (world st1) →
  configure cfg st1 = (Ok tt, st2) →
  (∃ written options tail,
     trace (world st2)
     = trace (world st1) ++ written
         ++ [clearcache_request cfg (configure_command (self st1));
             RunConfigure (configure_command (self st1)) (configure_args (self st2))
               options (meson_options cfg)]
         ++ tail
     ∧ Forall (λ e, starts_process e = false) written
     ∧ Forall (λ e, starts_process e = false) tail)
  ∧ (2 ≤ occurrences (lit "--reconfigure") (configure_args (self st2)))%nat.
Proof.
  intros Hforce Hclean Hsetup Hinfo Hrun.
  apply setup_Ok_inv in Hsetup as (st0 & dirs & _ & _ & _ & Hst1).
  assert (Hargs1 : (1 ≤ occurrences (lit "--reconfigure") (configure_args (self st1)))%nat).
  { rewrite Hst1 in Hinfo |- *. cbn [after_setup self world configure_args] in *.
    rewrite occurrences_app.
    pose proof (setup_configure_args_reconfigure cfg _ Hforce Hclean Hinfo). lia. }
  clear Hst1.
  apply configure_Ok_inv in Hrun as (tf & template & tail & _ & _ & _ & _ & Hrun).
  cbn zeta in Hrun. destruct Hrun as (Hself & Htrace & Htail).
  rewrite Hforce, Hclean in Hself, Htrace. cbn [andb negb] in Hself, Htrace.
  assert (Hthere : bool_decide (build_dir cfg </> component "meson-info"
                                  ∈ files_after_toolchain_files cfg tf (files (world st1)))
                   = true)
    by by apply bool_decide_eq_true_2, elem_of_files_after_toolchain_files.
  rewrite Hthere in Hself, Htrace.
  assert (Hargs2 : configure_args (self st2)
                   = configure_args (self st1) ++ [lit "--reconfigure"]
                       ++ [path_str (source_dir cfg); path_str (build_dir cfg)])
    by by rewrite Hself.
  split.
  - eexists (_ :: (if compiling_for_host cfg then [] else [_])), _, tail.
    split; [|split].
    + rewrite Htrace, Hargs2. unfold clearcache_request. reflexivity.
    + destruct (compiling_for_host cfg); by repeat constructor.
    + destruct Htail as [->| ->]; by repeat constructor.
  - rewrite Hargs2, !occurrences_app, occurrences_here. lia.
Qed.

(** The example cross build, constructed and set up with [/build/meson-info]
    present. *)
Lemma reconfigure_is_passed_twice_witness :
  (2 ≤ occurrences (lit "--reconfigure")
         (configure_args
            (self (state_after (configure reconfigured_cross_build) reconfigure_set_up))))%nat.
Proof.
  refine (proj2 (reconfigure_is_passed_twice reconfigured_cross_build
                   reconfigure_constructed reconfigure_set_up
                   (state_after (configure reconfigured_cross_build) reconfigure_set_up)
                   _ _ (returns_state_after _ _ _ _) _ (returns_state_after _ _ _ _))).
  - reflexivity.
  - reflexivity.
  - vm_compute. reflexivity.
  - vm_compute. set_solver.
  - vm_compute. reflexivity.
Defined.

(** In that run the arguments are [setup --cross-file /build/meson-cross-file.ini
    --native-file /build/meson-native-file.ini --reconfigure
    --wrap-mode=nofallback --reconfigure /src /build]: [--reconfigure] is
    there twice, where the specification has it exactly once. The cache is
    cleared before the main configure request. *)
Lemma reconfigure_not_exactly_once :
  (configure reconfigured_cross_build reconfigure_set_up).1 = Ok tt
  ∧ configure_args (self (state_after (configure reconfigured_cross_build) reconfigure_set_up))
    = [lit "setup"; lit "--cross-file"; lit "/build/meson-cross-file.ini";
       lit "--native-file"; lit "/build/meson-native-file.ini";
       lit "--reconfigure"; lit "--wrap-mode=nofallback"; lit "--reconfigure";
       lit "/src"; lit "/build"]
  ∧ occurrences (lit "--reconfigure")
      (configure_args (self (state_after (configure reconfigured_cross_build) reconfigure_set_up)))
    = 2%nat
  ∧ starts_process
      <$> trace (world (state_after (configure reconfigured_cross_build) reconfigure_set_up))
    = [false; false; true; true].
Proof. repeat split; vm_compute; reflexivity. Qed.

(** * Further properties *)

(** ** Construction *)

(** X1: [__init__] takes the command from [MESON_COMMAND] when the variable is
    set, even to the empty string, and is [meson] otherwise; it puts [setup]
    in front of the arguments and touches nothing else but the version
    floor. *)
Theorem init_chooses_command (st st' : State) :
  __init__ st = (Ok tt, st') →
  configure_command (self st')
  = default (lit "meson") (environ (world st) !! lit "MESON_COMMAND")
  ∧ configure_args (self st') = lit "setup" :: configure_args (self st)
  ∧ configure_options (self st') = configure_options (self st)
  ∧ world st' = world st.
Proof.
  intros H. unfold __init__ in H.
  apply bind_Ok_inv in H as (command & st1 & H1 & H).
  apply bind_Ok_inv in H as ([] & st2 & H2 & H).
  apply bind_Ok_inv in H as ([] & st3 & H3 & H).
  unfold set_minimum_meson_version in H.
  apply bind_Ok_inv in H as (current & st4 & H4 & H).
  apply bind_Ok_inv in H as ([] & st5 & H5 & H).
  unfold getenv in H1. injection H1 as <- <-.
  unfold update_self in H2, H3, H. injection H2 as <-. injection H3 as <-.
  unfold get in H4. injection H4 as <- <-.
  unfold assert_ in H5. destruct (match _ with Some _ => _ | None => _ end); [|done].
  injection H5 as <-. injection H as <-. cbn.
  by destruct (environ (world st) !! lit "MESON_COMMAND").
Qed.

Lemma init_chooses_command_witness :
  configure_command (self (state_after __init__ (example_state []))) = lit "meson"
  ∧ configure_args (self (state_after __init__ (example_state []))) = [lit "setup"].
Proof.
  destruct (init_chooses_command (example_state [])
              (state_after __init__ (example_state [])))
    as (Hcommand & Hargs & _).
  - apply returns_state_after. vm_compute. reflexivity.
  - split; [exact Hcommand | exact Hargs].
Defined.

(** X2: when the base class has left a floor above (0, 57, 0), [__init__] raises
    [AssertionError]: by then the command is chosen and [setup] is in front
    of the arguments, and the floor stays as it was. *)
Theorem init_raises_above_floor (st : State) (floor : Version) :
  _minimum_cmake_or_meson_version (self st) = Some floor →
  version_lt (0, 57, 0)%Z floor →
  ∃ st', __init__ st = (Raised (AssertionError None), st')
         ∧ _minimum_cmake_or_meson_version (self st') = Some floor
         ∧ configure_command (self st')
           = default (lit "meson") (environ (world st) !! lit "MESON_COMMAND")
         ∧ configure_args (self st') = lit "setup" :: configure_args (self st)
         ∧ world st' = world st.
Proof.
  intros Hfloor Hlt. unfold __init__.
  erewrite bind_Ok by done. erewrite bind_Ok by done. erewrite bind_Ok by done.
  erewrite set_minimum_meson_version_lower; [|exact Hfloor|exact Hlt].
  eexists. split; [done|]. cbn.
  by destruct (environ (world st) !! lit "MESON_COMMAND").
Qed.

Lemma init_raises_above_floor_witness :
  ∃ st', __init__ (state_after (set_minimum_meson_version 1 0 0) (example_state []))
         = (Raised (AssertionError None), st')
         ∧ _minimum_cmake_or_meson_version (self st') = Some (1, 0, 0)%Z
         ∧ configure_args (self st') = [lit "setup"].
Proof.
  destruct (init_raises_above_floor
              (state_after (set_minimum_meson_version 1 0 0) (example_state []))
              (1, 0, 0)%Z) as (st' & Hrun & Hfloor & _ & Hargs & _).
  - reflexivity.
  - cbn. lia.
  - exists st'. split; [exact Hrun|]. split; [exact Hfloor | exact Hargs].
Defined.

(** ** What a method leaves alone *)

Lemma bind_inv {A B} (m : M A) (k : A → M B) st r st' :
  bind m k st = (r, st') →
  (∃ a st1, m st = (Ok a, st1) ∧ k a st1 = (r, st'))
  ∨ (∃ e, m st = (Raised e, st') ∧ r = Raised e).
Proof.
  unfold bind. destruct (m st) as [[a|e] st1]; [eauto|].
  intros [= <- <-]. eauto.
Qed.

Lemma keeps_world_elim {A} (m : M A) st r st' :
  keeps_world m → m st = (r, st') → world st' = world st.
Proof. intros Hm. apply Hm. Qed.

Lemma keeps_world_bind {A B} (m : M A) (k : A → M B) :
  keeps_world m → (∀ a, keeps_world (k a)) → keeps_world (bind m k).
Proof.
  intros Hm Hk st r st' [(a & st1 & H1 & H2)|(e & H1 & _)]%bind_inv.
  - rewrite (Hk _ _ _ _ H2). exact (Hm _ _ _ H1).
  - exact (Hm _ _ _ H1).
Qed.

Lemma keeps_world_ret {A} (a : A) : keeps_world (ret a).
Proof. by intros st r st' [= _ <-]. Qed.

Lemma keeps_world_raise {A} e : keeps_world (raise (A := A) e).
Proof. by intros st r st' [= _ <-]. Qed.

Lemma keeps_world_get {A} (field : MesonProject → A) : keeps_world (get field).
Proof. by intros st r st' [= _ <-]. Qed.

Lemma keeps_world_get_assigned {A} name (field : MesonProject → option A) :
  keeps_world (get_assigned name field).
Proof.
  intros st r st'. unfold get_assigned. by destruct (field (self st)); intros [= _ <-].
Qed.

Lemma keeps_world_suppress {A} caught (m : M A) :
  keeps_world m → keeps_world (suppress caught m).
Proof.
  intros Hm st r st'. unfold suppress.
  destruct (m st) as [[a|e] st1] eqn:H1;
    [|destruct (caught e)]; intros [= _ <-]; exact (Hm _ _ _ H1).
Qed.

Lemma keeps_world_for_each {A B} (f : A → M B) l :
  (∀ x, keeps_world (f x)) → keeps_world (for_each f l).
Proof.
  intros Hf. induction l as [|x l IH]; cbn [for_each].
  - apply keeps_world_ret.
  - apply keeps_world_bind; [apply Hf|]. intros y.
    apply keeps_world_bind; [apply IH|]. intros ys.
    apply keeps_world_ret.
Qed.

Lemma keeps_world_assert cond msg : keeps_world (assert_ cond msg).
Proof. intros st r st'. unfold assert_. by destruct cond; intros [= _ <-]. Qed.

Lemma keeps_world_update_self f : keeps_world (update_self f).
Proof. by intros st r st' [= _ <-]. Qed.

Lemma keeps_world_exists p : keeps_world (exists_ p).
Proof. by intros st r st' [= _ <-]. Qed.

Lemma keeps_world_getenv name : keeps_world (getenv name).
Proof. by intros st r st' [= _ <-]. Qed.

Lemma keeps_world_which name : keeps_world (which name).
Proof. by intros st r st' [= _ <-]. Qed.

(** Splits a method into its steps, down to the requests it makes. *)
Ltac keeps_world_steps :=
  repeat first
    [ apply keeps_world_bind; [|intros ?]
    | apply keeps_world_ret
    | apply keeps_world_raise
    | apply keeps_world_get
    | apply keeps_world_get_assigned
    | apply keeps_world_assert
    | apply keeps_world_update_self
    | apply keeps_world_exists
    | apply keeps_world_getenv
    | apply keeps_world_which
    | apply keeps_world_suppress
    | apply keeps_world_for_each; intros ?
    | match goal with
      | |- keeps_world (if ?c then _ else _) => destruct c
      | |- keeps_world (match ?x with _ => _ end) => destruct x
      end ].

(** X3: [setup] itself writes no file, starts no process and logs nothing: whether
    it returns or raises, the world is as [super().setup()] left it. *)
Theorem setup_keeps_world (cfg : Attrs) (st : State) r st' :
  setup cfg st = (r, st') →
  ∃ r0 st0, super_setup cfg st = (r0, st0) ∧ world st' = world st0.
Proof.
  unfold setup. intros [(a & st0 & Hsuper & H)|(e & Hsuper & _)]%bind_inv;
    [|by eauto].
  exists (Ok a), st0. split; [done|].
  refine (keeps_world_elim _ _ _ _ _ H).
  unfold configure_args_append, configure_args_extend, _native_toolchain_file,
    reconfigure_wanted.
  keeps_world_steps.
Qed.

Lemma setup_keeps_world_witness :
  world (state_after (setup unsupported_cross_build) (example_state []))
  = example_world [].
Proof.
  destruct (setup_keeps_world unsupported_cross_build (example_state []) _ _
              (surjective_pairing _)) as (r0 & st0 & Hsuper & Hworld).
  injection Hsuper as _ <-. exact Hworld.
Defined.

(** A dependency whose library directory is outside the rootfs leaves
    [setup] without RPATH directories. *)
Lemma rpath_extra_libdirs_outside cfg root s :
  rootfs_dir cfg = Some root →
  s ∈ dependency_install_prefixes cfg →
  relative_to (s </> default_libdir (target_info cfg)) root = None →
  rpath_extra_libdirs cfg = None.
Proof.
  unfold rpath_extra_libdirs. intros -> Hin Hs.
  apply eq_None_not_Some. rewrite mapM_is_Some, Forall_fmap, Forall_forall.
  intros Hall. specialize (Hall s Hin). cbn in Hall. rewrite Hs in Hall.
  by destruct Hall.
Qed.

(** X4: in a cross build for a supported target that has a rootfs, a
    dependency whose library directory is outside the rootfs makes [setup]
    raise [ValueError]: [relative_to] raises it, and only [LookupError] is
    suppressed, so there is no fallback to the paths on the host. This is
    once [super().setup()] has returned, in a run that does not look for
    [meson-info] (no reconfigure is forced, or the build directory is
    cleaned). By then [setup] has chosen the cross file and passed its
    arguments and options, but has appended no RPATH flag and made no
    request. *)
Theorem setup_raises_outside_rootfs (cfg : Attrs) (st st0 : State) (root s : Path) :
  super_setup cfg st = (Ok tt, st0) →
  compiling_for_host cfg = false →
  is_freebsd (target_info cfg) || is_baremetal (target_info cfg) = true →
  force_configure cfg && negb (with_clean cfg) = false →
  rootfs_dir cfg = Some root →
  s ∈ dependency_install_prefixes cfg →
  relative_to (s </> default_libdir (target_info cfg)) root = None →
  ∃ st',
    setup cfg st = (Raised ValueError, st')
    ∧ world st' = world st0
    ∧ COMMON_LDFLAGS (self st') = COMMON_LDFLAGS (self st0)
    ∧ _toolchain_file (self st') = Some (build_dir cfg </> component "meson-cross-file.ini")
    ∧ configure_args (self st')
      = configure_args (self st0) ++ setup_configure_args cfg (files (world st0))
    ∧ configure_options (self st')
      = setup_configure_options cfg (configure_options (self st0)).
Proof.
  intros Hsuper Hcross Hsupported Hnoforce Hroot Hs Hrel.
  pose proof (rpath_extra_libdirs_outside cfg root s Hroot Hs Hrel) as Hnone.
  unfold setup. rewrite (bind_Ok _ _ _ _ _ Hsuper).
  erewrite bind_Ok by done.
  rewrite Hcross. cbn [negb]. rewrite Hsupported.
  erewrite bind_Ok.
  2:{ erewrite bind_Ok by done. erewrite bind_Ok by done. erewrite bind_Ok by done.
      unfold _native_toolchain_file. rewrite Hcross. cbn [negb].
      erewrite bind_Ok by (erewrite bind_Ok by done; reflexivity). done. }
  rewrite (bind_Ok _ _ _ _ _ (reconfigure_wanted_eq _ _)).
  rewrite Hnoforce. cbn [andb].
  erewrite bind_Ok by done. erewrite bind_Ok by done. erewrite bind_Ok by done.
  unfold setup_configure_args, setup_configure_options.
  rewrite Hcross, Hnoforce. cbn [andb].
  destruct (use_lto cfg), (use_asan cfg).
  all: erewrite bind_Ok by done; erewrite bind_Ok by done.
  all: unfold bind at 1; rewrite suppress_for_each_rootfs_relative, Hroot, Hnone.
  all: eexists; split; [done|].
  all: cbn; rewrite <- ?app_assoc; done.
Qed.

(** The example cross build with its dependencies in [/rootfs] and the
    rootfs in [/elsewhere], without a forced reconfigure. *)
Lemma setup_raises_outside_rootfs_witness :
  ∃ st',
    setup (with_rootfs_dir (Some (root_path ["elsewhere"]%string))
             missing_tools_cross_build) (example_state [])
    = (Raised ValueError, st')
    ∧ world st' = world (example_state [])
    ∧ COMMON_LDFLAGS (self st') = COMMON_LDFLAGS (self (example_state [])).
Proof.
  destruct (setup_raises_outside_rootfs
              (with_rootfs_dir (Some (root_path ["elsewhere"]%string))
                 missing_tools_cross_build)
              (example_state []) (example_state [])
              (root_path ["elsewhere"]%string) (root_path ["rootfs"]%string))
    as (st' & Hrun & Hworld & Hflags & _).
  - reflexivity.
  - reflexivity.
  - reflexivity.
  - reflexivity.
  - reflexivity.
  - apply list_elem_of_here.
  - vm_compute. reflexivity.
  - exists st'. split; [exact Hrun|]. split; [exact Hworld | exact Hflags].
Defined.

(** ** What [setup] leaves, continued *)

(** X5: a native [setup] with a [pkg_config_libdir_override] sets
    [PKG_CONFIG_LIBDIR] to it both in the environment of the configure step
    and in the one of the build tool, and leaves every other variable of
    both as it was; a cross build, or one without the override, leaves both
    environments alone. *)
Theorem setup_pkg_config_libdir (cfg : Attrs) (st st' : State) :
  setup cfg st = (Ok tt, st') →
  ∃ st0,
    super_setup cfg st = (Ok tt, st0)
    ∧ (∀ libdir,
         compiling_for_host cfg = true →
         pkg_config_libdir_override (target_info cfg) = Some libdir →
         configure_environment (self st') !! lit "PKG_CONFIG_LIBDIR" = Some libdir
         ∧ make_args_env (self st') !! lit "PKG_CONFIG_LIBDIR" = Some libdir
         ∧ ∀ name, name ≠ lit "PKG_CONFIG_LIBDIR" →
             configure_environment (self st') !! name
             = configure_environment (self st0) !! name
             ∧ make_args_env (self st') !! name = make_args_env (self st0) !! name)
    ∧ (compiling_for_host cfg = false
       ∨ pkg_config_libdir_override (target_info cfg) = None →
       configure_environment (self st') = configure_environment (self st0)
       ∧ make_args_env (self st') = make_args_env (self st0)).
Proof.
  intros Hsetup.
  apply setup_Ok_inv in Hsetup as (st0 & dirs & Hsuper & _ & _ & ->).
  exists st0. split; [done|].
  cbn [after_setup self configure_environment make_args_env]. split.
  - intros libdir -> ->. rewrite !lookup_insert_eq.
    split; [done|]. split; [done|].
    intros name Hname. by rewrite !lookup_insert_ne.
  - intros [-> | Hnone]; [done|].
    destruct (compiling_for_host cfg); [|done]. by rewrite Hnone.
Qed.

Lemma setup_pkg_config_libdir_witness :
  configure_environment
    (self (state_after (setup native_override_build) (example_state [])))
    !! lit "PKG_CONFIG_LIBDIR"
  = Some (lit "/usr/local64/libdata/pkgconfig")
  ∧ make_args_env
      (self (state_after (setup native_override_build) (example_state [])))
      !! lit "PKG_CONFIG_LIBDIR"
    = Some (lit "/usr/local64/libdata/pkgconfig").
Proof.
  destruct (setup_pkg_config_libdir native_override_build (example_state [])
              (state_after (setup native_override_build) (example_state [])))
    as (st0 & _ & Hset & _).
  { apply returns_state_after. vm_compute. reflexivity. }
  destruct (Hset (lit "/usr/local64/libdata/pkgconfig") eq_refl eq_refl)
    as (Hconfigure & Hmake & _).
  split; [exact Hconfigure | exact Hmake].
Defined.

(** ** The toolchain files *)

Lemma written_files_app l1 l2 : written_files (l1 ++ l2) = written_files l1 ++ written_files l2.
Proof. apply omap_app. Qed.

(** X6: the toolchain files that [setup] names on the command line are the files
    that [configure] writes, in the same order: the native file of a native
    build; the cross file and then the native file of a cross build. [setup]
    appends each with its option right after the arguments the base class
    left, and [configure] writes nothing else. *)
Theorem toolchain_files_named_are_written (cfg : Attrs) (st st1 st2 : State) :
  setup cfg st = (Ok tt, st1) →
  configure cfg st1 = (Ok tt, st2) →
  ∃ st0 rest,
    super_setup cfg st = (Ok tt, st0)
    ∧ configure_args (self st1)
      = configure_args (self st0)
          ++ (toolchain_files cfg ≫= λ named, [named.1; path_str named.2])
          ++ rest
    ∧ written_files (drop (length (trace (world st1))) (trace (world st2)))
      = (toolchain_files cfg).*2.
Proof.
  intros Hsetup Hrun.
  apply setup_Ok_inv in Hsetup as (st0 & dirs & Hsuper & _ & _ & Hst1).
  apply configure_Ok_inv in Hrun as (tf & template & tail & Htf & _ & _ & _ & Hrun).
  cbn zeta in Hrun. destruct Hrun as (_ & Htrace & Htail).
  rewrite Htrace, drop_app_length. clear Htrace.
  rewrite Hst1 in Htf |- *. cbn [after_setup self configure_args _toolchain_file] in *.
  injection Htf as <-.
  exists st0. eexists. split; [done|].
  unfold setup_configure_args, toolchain_files. split.
  - destruct (compiling_for_host cfg); cbn [mbind list_bind app fst snd];
      rewrite <- ?app_assoc; reflexivity.
  - rewrite !written_files_app.
    destruct (compiling_for_host cfg), (force_configure cfg && _ && bool_decide _),
      Htail as [-> | ->]; reflexivity.
Qed.

(** ** The accumulated options, counted *)

Lemma filter_key_absent key (opts : list (pystr * PyVal)) :
  key ∉ opts.*1 → filter (λ kv, kv.1 = key) opts = [].
Proof.
  intros Hnotin. induction opts as [|kv opts IH]; [done|].
  rewrite fmap_cons, not_elem_of_cons in Hnotin. destruct Hnotin as [Hne Hnotin].
  rewrite filter_cons_False by done. by apply IH.
Qed.

Lemma filter_key_drop_option key opts :
  filter (λ kv, kv.1 = key) (drop_option key opts) = [].
Proof.
  apply filter_key_absent. rewrite list_elem_of_fmap.
  intros (kv & -> & [Hne _]%elem_of_drop_option). done.
Qed.

Lemma filter_key_drop_other key key' opts :
  key' ≠ key →
  filter (λ kv, kv.1 = key) (drop_option key' opts) = filter (λ kv, kv.1 = key) opts.
Proof.
  intros Hne. unfold drop_option. induction opts as [|kv opts IH]; [done|].
  destruct (decide (kv.1 = key)) as [Hkey|Hkey].
  - rewrite (filter_cons_True (λ kv, kv.1 ≠ key')) by congruence.
    rewrite !(filter_cons_True (λ kv, kv.1 = key)) by done. by rewrite IH.
  - rewrite (filter_cons_False (λ kv, kv.1 = key) kv opts) by done.
    destruct (decide (kv.1 = key')) as [Hkey'|Hkey'].
    + by rewrite (filter_cons_False (λ kv, kv.1 ≠ key')) by (by intros ?).
    + rewrite (filter_cons_True (λ kv, kv.1 ≠ key')) by done.
      by rewrite (filter_cons_False (λ kv, kv.1 = key)) by done.
Qed.

(** An option that was set is in the list once. *)
Lemma add_configure_option_once opts key value :
  option_once key value (add_configure_option true opts (key, value)).
Proof.
  unfold option_once, add_configure_option, has_option. cbn [fst].
  case_bool_decide as Hin.
  - rewrite filter_app, filter_key_drop_option, app_nil_l.
    by rewrite filter_cons_True, filter_nil by done.
  - rewrite filter_app, filter_key_absent, app_nil_l by done.
    by rewrite filter_cons_True, filter_nil by done.
Qed.

(** Setting another option leaves it in the list once. *)
Lemma add_configure_option_once_other _replace opts key value key' value' :
  key' ≠ key →
  option_once key value opts →
  option_once key value (add_configure_option _replace opts (key', value')).
Proof.
  unfold option_once, add_configure_option. cbn [fst]. intros Hne Honce.
  destruct (has_option key' opts), _replace; [|done|..].
  - rewrite filter_app, filter_key_drop_other by done. rewrite Honce.
    by rewrite filter_cons_False, filter_nil by done.
  - rewrite filter_app, Honce.
    by rewrite filter_cons_False, filter_nil by done.
  - rewrite filter_app, Honce.
    by rewrite filter_cons_False, filter_nil by done.
Qed.

(** X7: after a [setup] that returned with the address sanitizer enabled, the
    options hold [b_sanitize] exactly once, with [address,undefined], and
    [b_lundef] exactly once, with false. *)
Theorem setup_asan_options (cfg : Attrs) (st st' : State) :
  setup cfg st = (Ok tt, st') →
  use_asan cfg = true →
  option_once (lit "b_sanitize") (VText (AStr (lit "address,undefined")))
    (configure_options (self st'))
  ∧ option_once (lit "b_lundef") (VBool false) (configure_options (self st')).
Proof.
  intros Hsetup Hasan.
  apply setup_Ok_inv in Hsetup as (st0 & dirs & _ & _ & _ & ->).
  cbn [after_setup self configure_options]. unfold setup_configure_options.
  rewrite Hasan. cbn [foldl]. split.
  - apply add_configure_option_once_other; [|apply add_configure_option_once].
    intros Heq. by apply lit_inj in Heq.
  - apply add_configure_option_once.
Qed.

Lemma toolchain_files_named_are_written_witness :
  ∃ st0 rest,
    super_setup reconfigured_cross_build reconfigure_constructed = (Ok tt, st0)
    ∧ configure_args (self reconfigure_set_up)
      = configure_args (self st0)
          ++ (toolchain_files reconfigured_cross_build
                ≫= λ named, [named.1; path_str named.2])
          ++ rest
    ∧ written_files
        (drop (length (trace (world reconfigure_set_up)))
           (trace (world (state_after (configure reconfigured_cross_build)
                            reconfigure_set_up))))
      = (toolchain_files reconfigured_cross_build).*2.
Proof.
  refine (toolchain_files_named_are_written reconfigured_cross_build
            reconfigure_constructed reconfigure_set_up
            (state_after (configure reconfigured_cross_build) reconfigure_set_up)
            (returns_state_after _ _ _ _) (returns_state_after _ _ _ _)).
  - vm_compute. reflexivity.
  - vm_compute. reflexivity.
Defined.

Lemma setup_asan_options_witness :
  option_once (lit "b_sanitize") (VText (AStr (lit "address,undefined")))
    (configure_options (self (state_after (setup native_asan_build) (example_state []))))
  ∧ option_once (lit "b_lundef") (VBool false)
      (configure_options (self (state_after (setup native_asan_build) (example_state [])))).
Proof.
  apply (setup_asan_options native_asan_build (example_state [])).
  - apply returns_state_after. vm_compute. reflexivity.
  - reflexivity.
Defined.

(** ** What [configure] does, continued *)

Lemma or_else_nonempty x fallback : fallback ≠ [] → or_else x fallback ≠ [].
Proof. by destruct x as [[|c s]|]. Qed.

(** X8: the [pkg-config] and [cmake] binaries that a returning [configure] writes
    into the toolchain file are never empty: each is what was found on the
    search path, or else the bare name. [cmake] is looked up under the value
    of [CMAKE_COMMAND] when that is set, but when nothing is found the
    fallback is the bare [cmake], not that value. *)
Theorem configure_tool_fallback (cfg : Attrs) (st st' : State) :
  configure cfg st = (Ok tt, st') →
  ∃ toolchain_file template pkg_config_bin cmake_bin,
    WriteToolchainFile toolchain_file template
      (toolchain_file_kwargs cfg pkg_config_bin cmake_bin) ∈ trace (world st')
    ∧ pkg_config_bin ≠ [] ∧ cmake_bin ≠ []
    ∧ (∀ found, on_search_path (world st) !! lit "pkg-config" = Some found →
                found ≠ [] → pkg_config_bin = found)
    ∧ (on_search_path (world st) !! lit "pkg-config" = None →
       pkg_config_bin = lit "pkg-config")
    ∧ (∀ found,
         on_search_path (world st)
           !! default (lit "cmake") (environ (world st) !! lit "CMAKE_COMMAND")
         = Some found →
         found ≠ [] → cmake_bin = found)
    ∧ (on_search_path (world st)
         !! default (lit "cmake") (environ (world st) !! lit "CMAKE_COMMAND") = None →
       cmake_bin = lit "cmake").
Proof.
  intros Hrun.
  apply configure_Ok_inv in Hrun as (tf & template & tail & _ & _ & _ & _ & Hrun).
  cbn zeta in Hrun. destruct Hrun as (_ & Htrace & _).
  exists tf, template, (found_pkg_config (world st)), (found_cmake (world st)).
  split; [|split; [|split; [|split; [|split; [|split]]]]].
  - rewrite Htrace, !elem_of_app. right. left. apply list_elem_of_here.
  - by apply or_else_nonempty.
  - by apply or_else_nonempty.
  - unfold found_pkg_config. intros found -> Hfound. by destruct found.
  - unfold found_pkg_config. by intros ->.
  - unfold found_cmake. intros found Hlookup Hfound.
    destruct (environ (world st) !! lit "CMAKE_COMMAND");
      cbn in Hlookup; rewrite Hlookup; by destruct found.
  - unfold found_cmake. intros Hlookup.
    destruct (environ (world st) !! lit "CMAKE_COMMAND");
      cbn in Hlookup; by rewrite Hlookup.
Qed.

Lemma configure_tool_fallback_witness :
  ∃ toolchain_file template,
    WriteToolchainFile toolchain_file template
      (toolchain_file_kwargs native_lto_build (lit "pkg-config") (lit "cmake"))
    ∈ trace (world (state_after (configure native_lto_build)
                     (state_after (setup native_lto_build) (example_state [])))).
Proof.
  destruct (configure_tool_fallback native_lto_build
              (state_after (setup native_lto_build) (example_state []))
              (state_after (configure native_lto_build)
                 (state_after (setup native_lto_build) (example_state []))))
    as (tf & template & pkg & cmake & Hin & _ & _ & _ & Hpkg & _ & Hcmake).
  - apply returns_state_after. vm_compute. reflexivity.
  - exists tf, template.
    rewrite <- (Hpkg eq_refl), <- (Hcmake eq_refl). exact Hin.
Defined.

(** X9: a returning [configure] runs the main configure command once, after the
    toolchain files are written and after every other process it starts; the
    command is the one chosen at construction, and the arguments and options
    it is run with are those the object holds afterwards. The last two
    arguments are the source directory and the build directory. *)
Theorem configure_runs_meson_once (cfg : Attrs) (st st' : State) :
  configure cfg st = (Ok tt, st') →
  ∃ before after_ args,
    trace (world st')
    = trace (world st) ++ before
        ++ [RunConfigure (configure_command (self st')) (configure_args (self st'))
              (configure_options (self st')) (meson_options cfg)]
        ++ after_
    ∧ Forall (λ e, ∀ command a options m, e ≠ RunConfigure command a options m)
        (before ++ after_)
    ∧ Forall (λ e, starts_process e = false) after_
    ∧ configure_command (self st') = configure_command (self st)
    ∧ configure_args (self st')
      = args ++ [path_str (source_dir cfg); path_str (build_dir cfg)].
Proof.
  intros Hrun.
  apply configure_Ok_inv in Hrun as (tf & template & tail & _ & _ & _ & _ & Hrun).
  cbn zeta in Hrun. destruct Hrun as (Hself & Htrace & Htail).
  eexists (_ :: (if compiling_for_host cfg then [] else [_])
             ++ (if force_configure cfg && negb (with_clean cfg) && bool_decide _
                 then [_] else [])), tail, _.
  split; [|split; [|split; [|split]]].
  - rewrite Htrace, Hself. cbn [configure_command configure_args configure_options
      set_configure_options set_configure_args].
    f_equal. cbn [app]. f_equal. by rewrite <- app_assoc.
  - destruct (compiling_for_host cfg), (force_configure cfg && _ && bool_decide _),
      Htail as [-> | ->]; by repeat constructor.
  - destruct Htail as [-> | ->]; by repeat constructor.
  - by rewrite Hself.
  - rewrite Hself. cbn [configure_args set_configure_options set_configure_args].
    rewrite app_assoc. reflexivity.
Qed.

Lemma configure_runs_meson_once_witness :
  ∃ before after_ args,
    trace (world (state_after (configure reconfigured_cross_build) reconfigure_set_up))
    = trace (world reconfigure_set_up) ++ before
        ++ [RunConfigure
              (configure_command
                 (self (state_after (configure reconfigured_cross_build)
                          reconfigure_set_up)))
              (configure_args
                 (self (state_after (configure reconfigured_cross_build)
                          reconfigure_set_up)))
              (configure_options
                 (self (state_after (configure reconfigured_cross_build)
                          reconfigure_set_up)))
              (meson_options reconfigured_cross_build)]
        ++ after_
    ∧ Forall (λ e, ∀ command a options m, e ≠ RunConfigure command a options m)
        (before ++ after_)
    ∧ Forall (λ e, starts_process e = false) after_
    ∧ configure_command
        (self (state_after (configure reconfigured_cross_build) reconfigure_set_up))
      = configure_command (self reconfigure_set_up)
    ∧ configure_args
        (self (state_after (configure reconfigured_cross_build) reconfigure_set_up))
      = args ++ [path_str (source_dir reconfigured_cross_build);
                 path_str (build_dir reconfigured_cross_build)].
Proof.
  refine (configure_runs_meson_once reconfigured_cross_build reconfigure_set_up
            (state_after (configure reconfigured_cross_build) reconfigure_set_up)
            (returns_state_after _ _ _ _)).
  vm_compute. reflexivity.
Defined.

(** X10: a cross build whose [other_tools_dir] is not among the host dependency
    prefixes is refused by [configure] with [AssertionError]: by then the cross
    toolchain file is written, but not the native one, and no process was
    started; the object is unchanged. *)
Theorem configure_requires_other_tools_dir (cfg : Attrs) (st : State)
    (toolchain_file : Path) (template : pystr) :
  _toolchain_file (self st) = Some toolchain_file →
  _toolchain_template (self st) = Some template →
  compiling_for_host cfg = false →
  other_tools_dir cfg ∉ host_dependency_prefixes cfg →
  ∃ st',
    configure cfg st = (Raised (AssertionError None), st')
    ∧ self st' = self st
    ∧ trace (world st')
      = trace (world st)
          ++ [WriteToolchainFile toolchain_file template
                (toolchain_file_kwargs cfg (found_pkg_config (world st))
                   (found_cmake (world st)))]
    ∧ files (world st') = {[toolchain_file]} ∪ files (world st).
Proof.
  intros Htf Htemplate Hcross Htools. unfold configure.
  rewrite (bind_Ok _ _ _ _ _ (find_pkg_config_eq st)).
  rewrite (bind_Ok _ _ _ _ _ (find_cmake_eq st)).
  erewrite bind_Ok by (unfold get_assigned; rewrite Htf; done).
  erewrite bind_Ok.
  2:{ unfold _prepare_toolchain_file_common.
      erewrite bind_Ok by (unfold get_assigned; rewrite Htemplate; done).
      done. }
  rewrite Hcross. cbn [negb].
  rewrite bool_decide_eq_false_2 by done.
  eexists. split.
  - apply bind_Raised. apply bind_Raised. done.
  - done.
Qed.

Lemma configure_requires_other_tools_dir_witness :
  ∃ st',
    configure missing_tools_cross_build
      (state_after (setup missing_tools_cross_build) (example_state []))
    = (Raised (AssertionError None), st')
    ∧ self st' = self (state_after (setup missing_tools_cross_build) (example_state []))
    ∧ trace (world st')
      = trace (world (state_after (setup missing_tools_cross_build) (example_state [])))
          ++ [WriteToolchainFile (root_path ["build"; "meson-cross-file.ini"]%string)
                (lit "[binaries]")
                (toolchain_file_kwargs missing_tools_cross_build
                   (found_pkg_config
                      (world (state_after (setup missing_tools_cross_build)
                                (example_state []))))
                   (found_cmake
                      (world (state_after (setup missing_tools_cross_build)
                                (example_state [])))))]
    ∧ files (world st')
      = {[root_path ["build"; "meson-cross-file.ini"]%string]}
          ∪ files (world (state_after (setup missing_tools_cross_build)
                            (example_state []))).
Proof.
  refine (configure_requires_other_tools_dir missing_tools_cross_build
            (state_after (setup missing_tools_cross_build) (example_state []))
            (root_path ["build"; "meson-cross-file.ini"]%string) (lit "[binaries]")
            _ _ _ _).
  - vm_compute. reflexivity.
  - vm_compute. reflexivity.
  - reflexivity.
  - refine (bool_decide_unpack _ _). vm_compute. exact I.
Defined.

(** The end of a [configure] that returned: either the configure step was the
    last request, or the compilation database was copied after it. *)
Lemma configure_Ok_last cfg st st' :
  configure cfg st = (Ok tt, st') →
  (copy_compilation_db_to_source_dir cfg = true
   ∧ build_dir cfg </> component "compile_commands.json" ∈ files (world st')
   ∧ source_dir cfg </> component "compile_commands.json" ∈ files (world st')
   ∧ last (trace (world st'))
     = Some (InstallFile (build_dir cfg </> component "compile_commands.json")
               (source_dir cfg </> component "compile_commands.json") true))
  ∨ ((copy_compilation_db_to_source_dir cfg = false
      ∨ build_dir cfg </> component "compile_commands.json" ∉ files (world st'))
     ∧ ∃ command args options config_file_options,
         last (trace (world st'))
         = Some (RunConfigure command args options config_file_options)).
Proof.
  unfold configure. intros H.
  apply bind_Ok_inv in H as (pkg & st1 & _ & H).
  apply bind_Ok_inv in H as (cmake & st2 & _ & H).
  apply bind_Ok_inv in H as (tf & st3 & _ & H).
  apply bind_Ok_inv in H as ([] & st4 & _ & H).
  apply bind_Ok_inv in H as ([] & st5 & _ & H).
  apply bind_Ok_inv in H as ([] & st6 & _ & H).
  apply bind_Ok_inv in H as (reconf & st7 & _ & H).
  apply bind_Ok_inv in H as ([] & st8 & _ & H).
  apply bind_Ok_inv in H as ([] & st9 & _ & H).
  apply bind_Ok_inv in H as ([] & st10 & _ & H).
  apply bind_Ok_inv in H as ([] & st11 & H11 & H).
  apply bind_Ok_inv in H as (have_db & st12 & H12 & H).
  unfold super_configure, bind, get in H11.
  apply spawn_Ok_inv in H11 as (_ & Htrace11 & _).
  destruct (copy_compilation_db_to_source_dir cfg).
  - unfold exists_ in H12. injection H12 as <- <-.
    destruct (bool_decide _) eqn:Hdb in H.
    + apply bool_decide_eq_true in Hdb.
      unfold install_file in H. injection H as <-. left. cbn.
      split; [done|]. split; [set_solver|]. split; [set_solver|].
      apply last_snoc.
    + apply bool_decide_eq_false in Hdb. injection H as <-. right.
      split; [by right|]. rewrite Htrace11. eexists _, _, _, _. apply last_snoc.
  - injection H12 as <- <-. injection H as <-. right.
    split; [by left|]. rewrite Htrace11. eexists _, _, _, _. apply last_snoc.
Qed.

(** X11: after a [configure] that returned, the compilation database is copied to
    the source directory exactly when the copy is requested and the configure
    step left [compile_commands.json] in the build directory: the copy is then
    the last request, made with [force], and the file is in the source
    directory; otherwise no file is installed. *)
Theorem configure_copies_compilation_db (cfg : Attrs) (st st' : State) :
  configure cfg st = (Ok tt, st') →
  (copy_compilation_db_to_source_dir cfg = true
   ∧ build_dir cfg </> component "compile_commands.json" ∈ files (world st') →
   last (trace (world st'))
   = Some (InstallFile (build_dir cfg </> component "compile_commands.json")
             (source_dir cfg </> component "compile_commands.json") true)
   ∧ source_dir cfg </> component "compile_commands.json" ∈ files (world st'))
  ∧ (copy_compilation_db_to_source_dir cfg = false
     ∨ build_dir cfg </> component "compile_commands.json" ∉ files (world st') →
     ∀ src dst force,
       InstallFile src dst force
       ∉ drop (length (trace (world st))) (trace (world st'))).
Proof.
  intros Hrun. pose proof (configure_Ok_last _ _ _ Hrun) as Hlast.
  apply configure_Ok_inv in Hrun as (tf & template & tail & _ & _ & _ & _ & Hrun).
  cbn zeta in Hrun. destruct Hrun as (_ & Htrace & Htail).
  split.
  - intros [Hcopy Hdb].
    destruct Hlast as [(_ & _ & Hsrc & Hlast)|([Hno|Hno] & _)]; [done|congruence|done].
  - intros Hno src dst force.
    destruct Hlast as [(Hcopy & Hdb & _)|(_ & command & a & o & m & Hlast)].
    { destruct Hno; [congruence|done]. }
    rewrite Htrace, drop_app_length.
    destruct Htail as [-> | ->].
    + rewrite !elem_of_app, !elem_of_cons, !elem_of_nil.
      destruct (compiling_for_host cfg), (force_configure cfg && _ && bool_decide _);
        rewrite ?elem_of_cons, ?elem_of_nil; intros Hin;
        repeat destruct Hin as [Hin|Hin]; done.
    + rewrite Htrace, !app_assoc, last_snoc in Hlast. done.
Qed.

Lemma configure_copies_compilation_db_witness :
  last (trace (world (state_after (configure native_asan_build)
                        (state_after (setup native_asan_build)
                           (mkState example_project world_with_compilation_db)))))
  = Some (InstallFile
            (build_dir native_asan_build </> component "compile_commands.json")
            (source_dir native_asan_build </> component "compile_commands.json") true)
  ∧ source_dir native_asan_build </> component "compile_commands.json"
    ∈ files (world (state_after (configure native_asan_build)
                      (state_after (setup native_asan_build)
                         (mkState example_project world_with_compilation_db)))).
Proof.
  refine (proj1 (configure_copies_compilation_db native_asan_build
                   (state_after (setup native_asan_build)
                      (mkState example_project world_with_compilation_db))
                   (state_after (configure native_asan_build)
                      (state_after (setup native_asan_build)
                         (mkState example_project world_with_compilation_db)))
                   (returns_state_after _ _ _ _)) _).
  - vm_compute. reflexivity.
  - split; [reflexivity|]. refine (bool_decide_unpack _ _). vm_compute. exact I.
Defined.

(** X12: [configure] is not replayable on the same object: a second call that
    returns has appended the source and the build directory again, so the
    second configure step is run with both directories twice. Between them
    there is [--reconfigure] or nothing. *)
Theorem configure_twice_appends_again (cfg : Attrs) (st st1 st2 : State) :
  configure cfg st = (Ok tt, st1) →
  configure cfg st1 = (Ok tt, st2) →
  ∃ first second,
    configure_args (self st2)
    = configure_args (self st)
        ++ first ++ [path_str (source_dir cfg); path_str (build_dir cfg)]
        ++ second ++ [path_str (source_dir cfg); path_str (build_dir cfg)]
    ∧ (first = [] ∨ first = [lit "--reconfigure"])
    ∧ (second = [] ∨ second = [lit "--reconfigure"]).
Proof.
  intros Hfirst Hsecond.
  apply configure_Ok_inv in Hfirst as (tf1 & ? & ? & _ & _ & _ & _ & Hfirst).
  apply configure_Ok_inv in Hsecond as (tf2 & ? & ? & _ & _ & _ & _ & Hsecond).
  cbn zeta in Hfirst, Hsecond.
  destruct Hfirst as (Hself1 & _), Hsecond as (Hself2 & _).
  rewrite Hself2, Hself1.
  cbn [configure_args set_configure_options set_configure_args].
  set (again1 := force_configure cfg && _
                 && bool_decide (_ ∈ files_after_toolchain_files cfg tf1 _)).
  set (again2 := force_configure cfg && _
                 && bool_decide (_ ∈ files_after_toolchain_files cfg tf2 _)).
  exists (if again1 then [lit "--reconfigure"] else []),
    (if again2 then [lit "--reconfigure"] else []).
  split; [|split].
  - do 2 rewrite <- app_assoc. reflexivity.
  - destruct again1; auto.
  - destruct again2; auto.
Qed.

Lemma configure_twice_appends_again_witness :
  ∃ first second,
    configure_args
      (self (state_after (configure native_lto_build)
               (state_after (configure native_lto_build)
                  (state_after (setup native_lto_build) (example_state [])))))
    = configure_args (self (state_after (setup native_lto_build) (example_state [])))
        ++ first
        ++ [path_str (source_dir native_lto_build);
            path_str (build_dir native_lto_build)]
        ++ second
        ++ [path_str (source_dir native_lto_build);
            path_str (build_dir native_lto_build)]
    ∧ (first = [] ∨ first = [lit "--reconfigure"])
    ∧ (second = [] ∨ second = [lit "--reconfigure"]).
Proof.
  refine (configure_twice_appends_again native_lto_build
            (state_after (setup native_lto_build) (example_state []))
            (state_after (configure native_lto_build)
               (state_after (setup native_lto_build) (example_state [])))
            (state_after (configure native_lto_build)
               (state_after (configure native_lto_build)
                  (state_after (setup native_lto_build) (example_state []))))
            (returns_state_after _ _ _ _) (returns_state_after _ _ _ _)).
  - vm_compute. reflexivity.
  - vm_compute. reflexivity.
Defined.

(** ** [run_tests], the branches that run something *)

(** X13: [run_tests] never changes the object and makes one request. For a native
    build it runs the configure command with [test --print-errorlogs] in the
    build directory; for a CheriBSD target it runs [run_meson_tests.py] with
    the extra arguments of the project, the build directory, the sysroot and
    the source directory mounted, and the disk image the project asks for. In
    both cases it returns exactly when the process exits with status zero. *)
Theorem run_tests_runs_one_process (cfg : Attrs) (st : State) :
  compiling_for_host cfg = true ∨ is_cheribsd (target_info cfg) = true →
  ∃ request argv,
    request
    = (if compiling_for_host cfg
       then RunCmd [configure_command (self st); lit "test"; lit "--print-errorlogs"]
              (build_dir cfg)
       else RunCheriBSDTestScript (lit "run_meson_tests.py")
              (meson_test_script_extra_args cfg) true true true
              (tests_need_full_disk_image cfg))
    ∧ self (state_after (run_tests cfg) st) = self st
    ∧ trace (world (state_after (run_tests cfg) st)) = trace (world st) ++ [request]
    ∧ (run_tests cfg st).1
      = (if (process (world st) request (files (world st))).1
         then Ok tt else Raised (CalledProcessError argv))
    ∧ (compiling_for_host cfg = true →
       argv = [configure_command (self st); lit "test"; lit "--print-errorlogs"]).
Proof.
  intros Hmode. unfold state_after, run_tests.
  destruct (compiling_for_host cfg).
  - eexists _, [configure_command (self st); lit "test"; lit "--print-errorlogs"].
    split; [done|].
    unfold bind, get, run_cmd, spawn. cbn [self world fst snd].
    destruct (process _ _ _) as [[] fs]; done.
  - destruct Hmode as [Hhost|Hcheri]; [done|]. rewrite Hcheri.
    eexists _, [lit "run_meson_tests.py"]. split; [done|]. unfold spawn.
    destruct (process _ _ _) as [[] fs]; done.
Qed.

Lemma run_tests_runs_one_process_witness :
  ∃ request argv,
    request
    = (if compiling_for_host native_lto_build
       then RunCmd [configure_command (self (example_state [])); lit "test";
                    lit "--print-errorlogs"]
              (build_dir native_lto_build)
       else RunCheriBSDTestScript (lit "run_meson_tests.py")
              (meson_test_script_extra_args native_lto_build) true true true
              (tests_need_full_disk_image native_lto_build))
    ∧ self (state_after (run_tests native_lto_build) (example_state []))
      = self (example_state [])
    ∧ trace (world (state_after (run_tests native_lto_build) (example_state [])))
      = trace (world (example_state [])) ++ [request]
    ∧ (run_tests native_lto_build (example_state [])).1
      = (if (process (world (example_state [])) request
               (files (world (example_state [])))).1
         then Ok tt else Raised (CalledProcessError argv))
    ∧ (compiling_for_host native_lto_build = true →
       argv = [configure_command (self (example_state [])); lit "test";
               lit "--print-errorlogs"]).
Proof.
  apply (run_tests_runs_one_process native_lto_build (example_state [])).
  left. reflexivity.
Defined.

(** ** The list syntax of the toolchain file, continued *)

Section ListText.
Variable isprintable : N → bool.

(** X14: a list that holds anything but strings and paths is refused with
    [AssertionError]; the message is [All values should be strings/Paths: ]
    followed by [str(values)]: the [repr] of every value, comma separated, in
    brackets. Nothing is returned or changed. *)
Theorem toolchain_file_list_rejects_other_values (values : list PyVal) (x : PyVal)
    (st : State) :
  x ∈ values →
  is_str_or_path x = false →
  _toolchain_file_list_to_str isprintable values st
  = (Raised (AssertionError
               (Some (lit "All values should be strings/Paths: "
                        ++ lit "[" ++ join (lit ", ") (repr_val isprintable <$> values)
                        ++ lit "]"))), st).
Proof.
  intros Hin Hx. unfold _toolchain_file_list_to_str.
  assert (Hsome : forallb is_str_or_path values = false).
  { apply not_true_is_false. intros Hall. rewrite forallb_forall in Hall.
    apply list_elem_of_In in Hin. specialize (Hall x Hin). congruence. }
  unfold bind, assert_. by rewrite Hsome.
Qed.

Lemma rendered_hex_digit d : d < 16 → rendered_char isprintable (hex_digit d).
Proof.
  intros Hd. left. unfold hex_digit. destruct (N.ltb_spec d 10); lia.
Qed.

Lemma rendered_hex_fixed w n : Forall (rendered_char isprintable) (hex_fixed w n).
Proof.
  revert n. induction w as [|w IH]; intros n; cbn [hex_fixed]; [constructor|].
  apply Forall_app. split; [apply IH|].
  apply Forall_singleton, rendered_hex_digit, N.mod_lt. lia.
Qed.

Lemma rendered_repr_char q c :
  q = SQUOTE ∨ q = DQUOTE → Forall (rendered_char isprintable) (repr_char isprintable q c).
Proof.
  intros Hq. unfold repr_char.
  assert (Hbackslash : rendered_char isprintable BACKSLASH) by (left; unfold BACKSLASH; lia).
  assert (Hletter : ∀ x, 32 ≤ x → x < 127 → rendered_char isprintable x) by (intros; by left).
  destruct ((c =? q) || (c =? BACKSLASH)) eqn:Hesc.
  { apply Forall_cons. split; [done|]. apply Forall_singleton.
    apply orb_true_iff in Hesc as [->%N.eqb_eq| ->%N.eqb_eq]; [|done].
    destruct Hq as [-> | ->]; left; unfold SQUOTE, DQUOTE; lia. }
  repeat match goal with
    | |- Forall _ (if ?b then _ else _) => destruct b eqn:?
    end.
  all: repeat first
    [ apply Forall_cons; split
    | apply Forall_app; split
    | apply rendered_hex_fixed
    | apply Forall_nil_2
    | done
    | by (left; unfold BACKSLASH; lia) ].
  all: try (apply rendered_hex_digit, N.mod_lt; lia).
  - left. apply orb_false_iff in Heqb2 as [?%N.ltb_ge ?%N.eqb_neq].
    apply N.ltb_lt in Heqb3. lia.
  - right. apply orb_false_iff in Heqb2 as [?%N.ltb_ge ?%N.eqb_neq].
    apply N.ltb_ge in Heqb3. split; [lia|done].
Qed.

Lemma rendered_repr_str s : Forall (rendered_char isprintable) (repr_str isprintable s).
Proof.
  unfold repr_str, repr_body.
  pose proof (repr_quote_cases s) as Hq.
  assert (Hquote : rendered_char isprintable (repr_quote s)).
  { left. destruct Hq as [-> | ->]; unfold SQUOTE, DQUOTE; lia. }
  apply Forall_app. split; [by apply Forall_singleton|].
  apply Forall_app. split; [|by apply Forall_singleton].
  apply Forall_concat, Forall_fmap, Forall_forall. intros c _.
  by apply rendered_repr_char.
Qed.

Lemma rendered_join sep items :
  Forall (rendered_char isprintable) sep →
  Forall (Forall (rendered_char isprintable)) items →
  Forall (rendered_char isprintable) (join sep items).
Proof.
  intros Hsep. induction 1 as [|x l Hx Hl IH]; cbn [join]; [constructor|].
  destruct l; [done|]. rewrite !Forall_app. auto.
Qed.

(** X15: the text rendered for a list of strings and paths holds only printable
    characters, whatever the strings hold: no line break, tab or other control
    character reaches the toolchain file through a list. *)
Theorem toolchain_file_list_is_printable (values : list StrOrPath) (st : State) :
  ∃ text,
    _toolchain_file_list_to_str isprintable (VText <$> values) st = (Ok text, st)
    ∧ Forall (rendered_char isprintable) text
    ∧ (10 ∉ text) ∧ (13 ∉ text).
Proof.
  unfold _toolchain_file_list_to_str.
  assert (Hall : forallb is_str_or_path (VText <$> values) = true).
  { by induction values. }
  rewrite Hall. eexists. split; [done|].
  assert (Htext : Forall (rendered_char isprintable)
                    (str_of_list isprintable (text_of <$> (VText <$> values)))).
  { unfold str_of_list. rewrite !Forall_app. split; [|split].
    - apply Forall_singleton. by left.
    - apply rendered_join.
      + apply Forall_cons. split; [by left|]. apply Forall_singleton. by left.
      + apply Forall_fmap, Forall_forall. intros s _. apply rendered_repr_str.
    - apply Forall_singleton. by left. }
  split; [done|].
  rewrite Forall_forall in Htext.
  split; intros [[? ?]|[? ?]]%Htext; lia.
Qed.

End ListText.

(** A string, a path, an [int], a [bool] and [None]. *)
Lemma toolchain_file_list_rejects_other_values_witness :
  _toolchain_file_list_to_str (λ _, false)
    [VText (AStr (lit "-O2")); VText (APath (root_path ["usr"; "lib"]%string));
     VInt (-3); VBool true; VNone] (example_state [])
  = (Raised (AssertionError
               (Some (lit "All values should be strings/Paths: ['-O2', PosixPath('/usr/lib'), -3, True, None]"))),
     example_state []).
Proof.
  refine (eq_trans
            (toolchain_file_list_rejects_other_values (λ _, false) _ (VInt (-3)) _ _ _) _).
  - do 2 apply list_elem_of_further. apply list_elem_of_here.
  - reflexivity.
  - vm_compute. reflexivity.
Defined.

(** ** The command line without a reconfigure *)

Lemma joinpath_component_inj p a b :
  p </> component a = p </> component b → a = b.
Proof.
  unfold joinpath, component. cbn. intros [= H].
  apply app_inv_head in H. injection H as H. by apply lit_inj.
Qed.

(** X16: unless a reconfigure is forced, the build directory is not cleaned and
    [meson-info] exists, neither [setup] nor [configure] asks for one: the
    arguments of the configure step are those of the base class, the
    toolchain files, [--wrap-mode=nofallback], the source directory and the
    build directory, and [configure] runs no other command. *)
Theorem no_reconfigure_unless_forced (cfg : Attrs) (st st1 st2 : State) :
  setup cfg st = (Ok tt, st1) →
  configure cfg st1 = (Ok tt, st2) →
  force_configure cfg = false
  ∨ with_clean cfg = true
  ∨ build_dir cfg </> component "meson-info" ∉ files (world st1) →
  ∃ st0,
    super_setup cfg st = (Ok tt, st0)
    ∧ configure_args (self st2)
      = configure_args (self st0)
          ++ (toolchain_files cfg ≫= λ named, [named.1; path_str named.2])
          ++ [lit "--wrap-mode=nofallback";
              path_str (source_dir cfg); path_str (build_dir cfg)]
    ∧ ∀ argv cwd,
        RunCmd argv cwd ∉ drop (length (trace (world st1))) (trace (world st2)).
Proof.
  intros Hsetup Hrun Hnot.
  apply setup_Ok_inv in Hsetup as (st0 & dirs & Hsuper & _ & _ & Hst1).
  apply configure_Ok_inv in Hrun as (tf & template & tail & Htf & _ & _ & _ & Hrun).
  cbn zeta in Hrun. destruct Hrun as (Hself & Htrace & Htail).
  assert (Hfiles : files (world st1) = files (world st0)) by by rewrite Hst1.
  assert (Htoolchain : tf = if compiling_for_host cfg
                            then build_dir cfg </> component "meson-native-file.ini"
                            else build_dir cfg </> component "meson-cross-file.ini").
  { rewrite Hst1 in Htf. cbn in Htf. by injection Htf as <-. }
  assert (Hsetup_time :
    force_configure cfg && negb (with_clean cfg)
    && bool_decide (build_dir cfg </> component "meson-info" ∈ files (world st0))
    = false).
  { rewrite <- Hfiles. destruct Hnot as [-> | [-> | Hno]].
    - done.
    - by rewrite andb_false_r.
    - rewrite bool_decide_eq_false_2 by done. by rewrite andb_false_r. }
  assert (Hconfigure_time :
    force_configure cfg && negb (with_clean cfg)
    && bool_decide (build_dir cfg </> component "meson-info"
                      ∈ files_after_toolchain_files cfg tf (files (world st1)))
    = false).
  { destruct Hnot as [-> | [-> | Hno]].
    - done.
    - by rewrite andb_false_r.
    - rewrite bool_decide_eq_false_2; [by rewrite andb_false_r|].
      unfold files_after_toolchain_files. rewrite Htoolchain.
      destruct (compiling_for_host cfg);
        rewrite ?elem_of_union, !elem_of_singleton;
        intros Hin; repeat destruct Hin as [Hin|Hin]; try done;
        by apply joinpath_component_inj in Hin. }
  rewrite Hconfigure_time in Hself, Htrace.
  exists st0. split; [done|]. split.
  - rewrite Hself, Hst1.
    cbn [after_setup self configure_args set_configure_options set_configure_args].
    unfold setup_configure_args, toolchain_files. rewrite Hsetup_time.
    destruct (compiling_for_host cfg); cbn [mbind list_bind app fst snd];
      rewrite <- ?app_assoc; reflexivity.
  - intros argv cwd. rewrite Htrace, drop_app_length.
    destruct (compiling_for_host cfg), Htail as [-> | ->];
      rewrite !elem_of_app, ?elem_of_cons, ?elem_of_nil;
      intros Hin; repeat destruct Hin as [Hin|Hin]; done.
Qed.

Lemma no_reconfigure_unless_forced_witness :
  ∃ st0,
    super_setup native_lto_build (example_state []) = (Ok tt, st0)
    ∧ configure_args
        (self (state_after (configure native_lto_build)
                 (state_after (setup native_lto_build) (example_state []))))
      = configure_args (self st0)
          ++ (toolchain_files native_lto_build ≫= λ named, [named.1; path_str named.2])
          ++ [lit "--wrap-mode=nofallback";
              path_str (source_dir native_lto_build);
              path_str (build_dir native_lto_build)]
    ∧ ∀ argv cwd,
        RunCmd argv cwd
        ∉ drop (length (trace (world (state_after (setup native_lto_build)
                                        (example_state [])))))
            (trace (world (state_after (configure native_lto_build)
                             (state_after (setup native_lto_build)
                                (example_state []))))).
Proof.
  refine (no_reconfigure_unless_forced native_lto_build (example_state [])
            (state_after (setup native_lto_build) (example_state []))
            (state_after (configure native_lto_build)
               (state_after (setup native_lto_build) (example_state [])))
            (returns_state_after _ _ _ _) (returns_state_after _ _ _ _) _).
  - vm_compute. reflexivity.
  - vm_compute. reflexivity.
  - left. reflexivity.
Defined.

(** ** A configure step that fails *)

Lemma spawn_Raised request argv st :
  (process (world st) request (files (world st))).1 = false →
  spawn request argv st
  = (Raised (CalledProcessError argv),
     mkState (self st)
       (set_files (process (world st) request (files (world st))).2
          (log request (world st)))).
Proof.
  unfold spawn. destruct (process _ _ _) as [ok fs]. cbn. by intros ->.
Qed.

(** X17: when the configure step exits with a non-zero status, [configure]
    raises the error of that command, with the command line it ran; the
    configure step is the last request, and the compilation database is not
    copied. This is for a run that gets as far as the configure step: [setup]
    has chosen the toolchain file, the assertions hold, and no reconfigure is
    forced (or the build directory is cleaned), so that [meson-info] is not
    looked for. *)
Theorem configure_propagates_tool_failure (cfg : Attrs) (st : State)
    (toolchain_file : Path) (template : pystr) :
  _toolchain_file (self st) = Some toolchain_file →
  _toolchain_template (self st) = Some template →
  (compiling_for_host cfg = false →
   other_tools_dir cfg ∈ host_dependency_prefixes cfg) →
  (install_prefix cfg ≠ install_dir cfg → is_Some (destdir cfg)) →
  force_configure cfg && negb (with_clean cfg) = false →
  (process (world st) (plain_configure_request cfg (self st))
     (files_after_toolchain_files cfg toolchain_file (files (world st)))).1 = false →
  ∃ st',
    configure cfg st
    = (Raised (CalledProcessError
                 (configure_command (self st) :: plain_configure_args cfg (self st))),
       st')
    ∧ last (trace (world st')) = Some (plain_configure_request cfg (self st))
    ∧ (∀ src dst force,
         InstallFile src dst force
         ∉ drop (length (trace (world st))) (trace (world st')))
    ∧ configure_args (self st') = plain_configure_args cfg (self st).
Proof.
  intros Htf Htemplate Htools Hdest Hnoforce Hfail. unfold configure.
  rewrite (bind_Ok _ _ _ _ _ (find_pkg_config_eq st)).
  rewrite (bind_Ok _ _ _ _ _ (find_cmake_eq st)).
  erewrite bind_Ok by (unfold get_assigned; rewrite Htf; done).
  erewrite bind_Ok.
  2:{ unfold _prepare_toolchain_file_common.
      erewrite bind_Ok by (unfold get_assigned; rewrite Htemplate; done).
      done. }
  revert Hfail.
  unfold plain_configure_request, plain_configure_args, prefix_option,
    files_after_toolchain_files.
  destruct (compiling_for_host cfg) eqn:Hhost; cbn [negb];
    [|rewrite (bool_decide_eq_true_2 _ (Htools eq_refl))];
    (destruct (bool_decide (install_prefix cfg ≠ install_dir cfg)) eqn:Hprefix;
     [apply bool_decide_eq_true in Hprefix;
      rewrite (bool_decide_eq_true_2 _ (Hdest Hprefix))|]);
    intros Hfail.
  all: erewrite bind_Ok;
    [|first [ done
            | erewrite bind_Ok by done;
              unfold _native_toolchain_file; rewrite Hhost; cbn [negb];
              erewrite bind_Ok by (erewrite bind_Ok by done; reflexivity);
              done ]].
  all: erewrite bind_Ok; [|first [done | erewrite bind_Ok by done; done]].
  all: rewrite (bind_Ok _ _ _ _ _ (reconfigure_wanted_eq _ _)), Hnoforce;
    cbn [andb].
  all: erewrite bind_Ok by done; erewrite bind_Ok by done;
    erewrite bind_Ok by done.
  all: eexists; split;
    [apply bind_Raised; unfold super_configure;
     erewrite bind_Ok by done; erewrite bind_Ok by done; erewrite bind_Ok by done;
     cbn [self world configure_command configure_args configure_options
          set_configure_args set_configure_options];
     rewrite <- app_assoc; cbn [app];
     apply spawn_Raised; exact Hfail|].
  all: cbn [self world trace log set_files configure_args set_configure_args
            set_configure_options].
  all: split; [apply last_snoc|]; split; [|done].
  all: intros src dst force; rewrite <- ?app_assoc, drop_app_length;
    cbn [app]; rewrite !elem_of_cons, elem_of_nil; intros Hin;
    repeat destruct Hin as [Hin|Hin]; done.
Qed.

(** The native build that asks for the copy of the compilation database,
    constructed and set up in a world where the configure step fails. *)
Lemma configure_propagates_tool_failure_witness :
  ∃ st',
    configure native_asan_build
      (state_after (setup native_asan_build)
         (state_after __init__
            (mkState example_project world_with_failing_configure)))
    = (Raised (CalledProcessError
                 [lit "meson"; lit "setup"; lit "--native-file";
                  lit "/build/meson-native-file.ini";
                  lit "--wrap-mode=nofallback"; lit "/src"; lit "/build"]),
       st')
    ∧ ∀ src dst force,
        InstallFile src dst force
        ∉ drop (length (trace (world (state_after (setup native_asan_build)
                                        (state_after __init__
                                           (mkState example_project
                                              world_with_failing_configure))))))
            (trace (world st')).
Proof.
  destruct (configure_propagates_tool_failure native_asan_build
              (state_after (setup native_asan_build)
                 (state_after __init__
                    (mkState example_project world_with_failing_configure)))
              (root_path ["build"; "meson-native-file.ini"]%string)
              (lit "[binaries]"))
    as (st' & Hrun & _ & Hcopy & _).
  - vm_compute. reflexivity.
  - vm_compute. reflexivity.
  - discriminate.
  - intros Hprefix. exfalso. apply Hprefix. reflexivity.
  - reflexivity.
  - vm_compute. reflexivity.
  - exists st'. split; [|exact Hcopy]. rewrite Hrun. reflexivity.
Defined.

(** ** The RPATH inside the target *)

Lemma strip_prefix_Some pre l r : strip_prefix pre l = Some r → l = pre ++ r.
Proof.
  revert l. induction pre as [|x pre IH]; intros [|y l]; cbn; try done.
  - by intros [= ->].
  - by intros [= ->].
  - destruct (decide (x = y)) as [->|]; [|done]. intros ->%IH. done.
Qed.

Lemma relative_to_Some p root below :
  relative_to p root = Some below → absolute below = false ∧ p = root </> below.
Proof.
  unfold relative_to. destruct (decide _) as [Habs|]; [|done].
  destruct (strip_prefix _ _) as [r|] eqn:Hstrip; [|done].
  intros [= <-]. split; [done|]. apply strip_prefix_Some in Hstrip.
  unfold joinpath. cbn. rewrite <- Hstrip, <- Habs. by destruct p.
Qed.

(** X18: after a [setup] of a cross build that returned, the RPATH flag lists,
    after the additional directories of the target, one directory for each
    dependency prefix, in order and before duplicates are removed: with a
    rootfs, the library directory as it is named inside the target (a slash
    and the path below the rootfs); without one, the path on the host. *)
Theorem rpath_directories_in_target (cfg : Attrs) (st st' : State) :
  setup cfg st = (Ok tt, st') →
  compiling_for_host cfg = false →
  ∃ st0 extra,
    super_setup cfg st = (Ok tt, st0)
    ∧ Forall2 (rpath_entry_of cfg) (dependency_install_prefixes cfg) extra
    ∧ COMMON_LDFLAGS (self st')
      = match remove_duplicates
                (additional_rpath_directories (target_info cfg) ++ extra) with
        | [] => COMMON_LDFLAGS (self st0)
        | dirs => COMMON_LDFLAGS (self st0) ++ [rpath_flag dirs]
        end.
Proof.
  intros Hsetup Hcross.
  apply setup_Ok_inv in Hsetup as (st0 & dirs & Hsuper & _ & Hdirs & ->).
  destruct (setup_rpath_dirs_cross cfg dirs Hcross Hdirs) as (extra & Hextra & ->).
  exists st0, extra. split; [done|]. split.
  - unfold rpath_extra_libdirs in Hextra. unfold rpath_entry_of.
    destruct (rootfs_dir cfg) as [root|].
    + apply mapM_Some in Hextra. apply Forall2_fmap_l in Hextra.
      eapply Forall2_impl; [exact Hextra|]. cbn. intros prefix entry Hentry.
      destruct (relative_to _ root) as [below|] eqn:Hbelow; [|done].
      injection Hentry as <-. apply relative_to_Some in Hbelow as [? ?]. eauto.
    + injection Hextra as <-. rewrite <- list_fmap_compose.
      apply Forall2_fmap_r, Forall_Forall2_diag, Forall_forall. done.
  - cbn [after_setup self COMMON_LDFLAGS].
    by destruct (remove_duplicates _).
Qed.

Lemma rpath_directories_in_target_witness :
  ∃ st0 extra,
    super_setup reconfigured_cross_build (example_state []) = (Ok tt, st0)
    ∧ Forall2 (rpath_entry_of reconfigured_cross_build)
        (dependency_install_prefixes reconfigured_cross_build) extra
    ∧ COMMON_LDFLAGS
        (self (state_after (setup reconfigured_cross_build) (example_state [])))
      = match remove_duplicates
                (additional_rpath_directories (target_info reconfigured_cross_build)
                   ++ extra) with
        | [] => COMMON_LDFLAGS (self st0)
        | dirs => COMMON_LDFLAGS (self st0) ++ [rpath_flag dirs]
        end.
Proof.
  refine (rpath_directories_in_target reconfigured_cross_build (example_state [])
            (state_after (setup reconfigured_cross_build) (example_state []))
            (returns_state_after _ _ _ _) _).
  - vm_compute. reflexivity.
  - reflexivity.
Defined.
